(** * Flexifi release preparation tool

    A shallow embedding of [tools/prepare_release.py] and the properties
    of its step pipeline.

    The script is sequential and talks to three things: the file system
    (through [pathlib.Path] and [open]), the console (through [print]) and
    one external shell (through [subprocess.run]).  The embedding threads a
    [world] holding exactly these through every call, in a state monad with
    exceptions, so that each Python function below is a monadic Rocq
    function of the same name.

    Conventions.
    - A Python [str] is a Rocq [string] holding its UTF-8 encoding; the
      literals are those of the script.
    - The working directory is fixed for the run; a relative path is the
      key of the file system map.
    - The file system has regular files and directories and no
      permissions, quotas or links: reading or truncating a regular file
      succeeds, a directory cannot be opened, a missing file is created by
      opening it for writing.
    - The shell can always be started; what a command writes to its
      standard output and error arrives as bytes, which [subprocess.run]
      decodes in text mode and may fail to decode.
    - What the interpreter's libraries do and the script does not define
      (the external commands, the decoding of their output, the JSON
      codec, signal names) is collected in the record [platform] and
      universally quantified in every theorem. *)

From Stdlib Require Import ZArith String Ascii List DecimalString Lia.
From stdpp Require Import gmap strings list.

Open Scope string_scope.
Open Scope list_scope.

(** ** Python built-ins used by the script *)

Module Py.

(** Truth value of a [str]: the empty string is falsy. *)
Definition truthy (s : string) : bool :=
  match s with EmptyString => false | String _ _ => true end.

(** Truth value of an optional [str]: [None] and [""] are falsy. *)
Definition truthy_opt (o : option string) : bool :=
  match o with None => false | Some s => truthy s end.

(** [str(n)] and the [{n}] of an f-string, for an [int]. *)
Definition str_of_nat (n : nat) : string :=
  NilEmpty.string_of_uint (Nat.to_uint n).

Definition str_of_Z (z : Z) : string :=
  NilZero.string_of_int (Z.to_int z).

(** [s * n]. *)
Fixpoint str_mul (s : string) (n : nat) : string :=
  match n with
  | O => ""
  | S k => s +:+ str_mul s k
  end.

(** The newline character of the escape [\n]. *)
Definition nl : string := String (ascii_of_nat 10) "".

(** White space as [str.isspace] has it, on the UTF-8 encoding: the
    one-byte characters U+0009..U+000D, U+001C..U+0020, the two-byte
    U+0085 and U+00A0, and the three-byte U+1680, U+2000..U+200A,
    U+2028, U+2029, U+202F, U+205F and U+3000. *)
Definition space1 (a : ascii) : bool :=
  let n := nat_of_ascii a in
  (((9 <=? n) && (n <=? 13)) || ((28 <=? n) && (n <=? 32)))%nat.

Definition space2 (a b : ascii) : bool :=
  ((nat_of_ascii a =? 194) &&
   ((nat_of_ascii b =? 133) || (nat_of_ascii b =? 160)))%nat.

Definition space3 (a b c : ascii) : bool :=
  let x := nat_of_ascii a in
  let y := nat_of_ascii b in
  let z := nat_of_ascii c in
  (((x =? 225) && (y =? 154) && (z =? 128)) ||
   ((x =? 226) && (y =? 128) &&
      (((128 <=? z) && (z <=? 138)) || (z =? 168) || (z =? 169) || (z =? 175))) ||
   ((x =? 226) && (y =? 129) && (z =? 159)) ||
   ((x =? 227) && (y =? 128) && (z =? 128)))%nat.

(** Drop leading white space.  [fwd] tells whether the bytes are read in
    encoding order or, for the right end, reversed. *)
Fixpoint skip_space (fwd : bool) (s : string) : string :=
  match s with
  | EmptyString => s
  | String a s1 =>
      if space1 a then skip_space fwd s1
      else
        match s1 with
        | EmptyString => s
        | String b s2 =>
            if (if fwd then space2 a b else space2 b a) then skip_space fwd s2
            else
              match s2 with
              | EmptyString => s
              | String c s3 =>
                  if (if fwd then space3 a b c else space3 c b a)
                  then skip_space fwd s3
                  else s
              end
        end
  end.

Definition lstrip (s : string) : string := skip_space true s.

Definition rstrip (s : string) : string :=
  String.rev (skip_space false (String.rev s)).

(** [s.strip()]. *)
Definition strip (s : string) : string := rstrip (lstrip s).

End Py.

(** ** The JSON documents of [json.load] *)

(** The values [json.load] builds: [None], [bool], [int], [float] (kept as
    its binary64 bit pattern, never inspected), [str], [list] and [dict].
    A [dict] is a finite map: two documents with the same keys and values
    are equal whatever the order their keys were written in. *)
#[warnings="-register-all"]
Inductive json : Type :=
| JNull
| JBool (b : bool)
| JInt (z : Z)
| JFloat (bits : Z)
| JStr (s : string)
| JArr (items : list json)
| JObj (members : gmap string json).

(** ** Exceptions *)

Inductive exn : Type :=
| CalledProcessError (cmd : string) (returncode : Z) (stdout stderr : string)
| OSError (msg : string)
| ValueError (msg : string)
| TypeError (msg : string)
| SystemExit (code : Z).

Inductive result (A : Type) : Type :=
| Ok (a : A)
| Raise (e : exn).

Arguments Ok {A} a.
Arguments Raise {A} e.

(** ** The world: file system, console and a log of system calls *)

(** A path names a regular file with its bytes or a directory with the
    size [stat] reports for it. *)
Inductive node : Type :=
| File (data : string)
| Dir (size : nat).

Definition st_size (n : node) : nat :=
  match n with
  | File data => String.length data
  | Dir size => size
  end.

(** The system calls the script makes, in the order it makes them. *)
Inductive event : Type :=
| EvExists (path : string)
| EvStat (path : string)
| EvOpenRead (path : string)
| EvOpenWrite (path : string)
| EvWrite (path : string)
| EvRun (cmd : string).

Record world : Type := World {
  fs : gmap string node;
  out : list string;
  log : list event
}.

(** The exit status of a finished subprocess and what it wrote to its
    standard output and standard error, captured. *)
Record CompletedProcess : Type := Completed {
  cp_returncode : Z;
  cp_stdout : string;
  cp_stderr : string
}.

Inductive decoded : Type :=
| Decoded (doc : json)
| Malformed (msg : string).

(** Captured bytes read as text, or the message of the
    [UnicodeDecodeError] when they are not text in the encoding used. *)
Inductive decoding : Type :=
| Text (text : string)
| Undecodable (msg : string).

(** The parts of the interpreter and the operating system that the script
    calls and does not define. *)
Record platform : Type := Platform {
  (** [/bin/sh -c cmd]: the exit status, the bytes captured and what the
      command did to the files. *)
  shell : string -> gmap string node -> CompletedProcess * gmap string node;
  (** Text mode: decoding of captured bytes in the locale's encoding,
      with line ends translated. *)
  text_decode : string -> decoding;
  (** [repr(signal.Signals(n))], when [n] is a signal number. *)
  signal_repr : Z -> option string;
  (** Decoding and parsing of a file's bytes by [json.load]. *)
  json_load : string -> decoded;
  (** The text [json.dump(doc, f, indent=4)] writes. *)
  json_dump : json -> string
}.

(** ** The monad of the script: state and exceptions *)

Definition M (A : Type) : Type := world -> result A * world.

Definition ret {A : Type} (a : A) : M A := fun w => (Ok a, w).

Definition raise {A : Type} (e : exn) : M A := fun w => (Raise e, w).

Definition bind {A B : Type} (m : M A) (k : A -> M B) : M B :=
  fun w =>
    match m w with
    | (Ok a, w') => k a w'
    | (Raise e, w') => (Raise e, w')
    end.

Declare Scope py_scope.
Delimit Scope py_scope with py.
Bind Scope py_scope with M.

Notation "x <- m ;; k" := (bind m (fun x => k))
  (at level 100, m at next level, k at level 200, right associativity) : py_scope.
Notation "m ;; k" := (bind m (fun _ => k))
  (at level 100, k at level 200, right associativity) : py_scope.

Open Scope py_scope.

(** [try: body except ... as e: handler e]; the handler answers [None] for
    an exception its [except] clause does not match. *)
Definition try_except {A : Type} (body : M A) (handler : exn -> option (M A)) : M A :=
  fun w =>
    match body w with
    | (Ok a, w') => (Ok a, w')
    | (Raise e, w') =>
        match handler e with
        | Some h => h w'
        | None => (Raise e, w')
        end
    end.

Definition print (line : string) : M unit :=
  fun w => (Ok tt, World (fs w) (out w ++ [line]) (log w)).

Definition syscall (e : event) (w : world) : world :=
  World (fs w) (out w) (log w ++ [e]).

(** Whether a path names something; symbolic links are not modelled. *)
Definition present (files : gmap string node) (p : string) : bool :=
  bool_decide (is_Some (files !! p)).

(** [Path(p).exists()]. *)
Definition path_exists (p : string) : M bool :=
  fun w => (Ok (present (fs w) p), syscall (EvExists p) w).

(** [Path(p).stat().st_size]. *)
Definition path_size (p : string) : M nat :=
  fun w =>
    match fs w !! p with
    | Some n => (Ok (st_size n), syscall (EvStat p) w)
    | None =>
        (Raise (OSError ("[Errno 2] No such file or directory: '" +:+ p +:+ "'")),
         syscall (EvStat p) w)
    end.

(** [with open(p, "r") as f: f.read()], up to decoding. *)
Definition read_file (p : string) : M string :=
  fun w =>
    match fs w !! p with
    | Some (File data) => (Ok data, syscall (EvOpenRead p) w)
    | Some (Dir _) =>
        (Raise (OSError ("[Errno 21] Is a directory: '" +:+ p +:+ "'")),
         syscall (EvOpenRead p) w)
    | None =>
        (Raise (OSError ("[Errno 2] No such file or directory: '" +:+ p +:+ "'")),
         syscall (EvOpenRead p) w)
    end.

(** [open(p, "w")]: creates the file or truncates it. *)
Definition open_write (p : string) : M unit :=
  fun w =>
    match fs w !! p with
    | Some (Dir _) =>
        (Raise (OSError ("[Errno 21] Is a directory: '" +:+ p +:+ "'")),
         syscall (EvOpenWrite p) w)
    | _ =>
        (Ok tt, World (<[p := File ""]> (fs w)) (out w) (log w ++ [EvOpenWrite p]))
    end.

(** [f.write(text)] on the file opened at [p], and its close. *)
Definition write_file (p text : string) : M unit :=
  fun w =>
    match fs w !! p with
    | Some (File data) =>
        (Ok tt, World (<[p := File (data +:+ text)]> (fs w)) (out w) (log w ++ [EvWrite p]))
    | _ =>
        (Raise (OSError ("[Errno 9] Bad file descriptor")), syscall (EvWrite p) w)
    end.

(** [for x in items: s = body x s], with the loop's local variables as [s]. *)
Fixpoint for_in {A S : Type} (items : list A) (body : A -> S -> M S) (s : S) : M S :=
  match items with
  | [] => ret s
  | x :: rest => s' <- body x s ;; for_in rest body s'
  end.

(** [for x in items: body x]. *)
Definition for_each {A : Type} (items : list A) (body : A -> M unit) : M unit :=
  for_in items (fun x _ => body x) tt.

(** [if items:] on a list. *)
Definition nonempty {A : Type} (items : list A) : bool :=
  match items with [] => false | _ :: _ => true end.

(** Whether a string holds the character of code 0, which no argument
    of a process may hold. *)
Fixpoint has_nul (s : string) : bool :=
  match s with
  | EmptyString => false
  | String c rest => (nat_of_ascii c =? 0)%nat || has_nul rest
  end.

(** ** The script *)

Section Script.

Context (P : platform).

(** What [communicate] makes of the captured bytes in text mode: the
    standard output is decoded, then the standard error; bytes that do
    not decode raise [UnicodeDecodeError], a [ValueError]. *)
Definition decode_output (r : CompletedProcess) : result CompletedProcess :=
  match text_decode P (cp_stdout r) with
  | Undecodable msg => Raise (ValueError msg)
  | Text stdout =>
      match text_decode P (cp_stderr r) with
      | Undecodable msg => Raise (ValueError msg)
      | Text stderr => Ok (Completed (cp_returncode r) stdout stderr)
      end
  end.

(** [subprocess.run(cmd, shell=True, check=True, capture_output=True,
    text=True)].  A command holding a null character raises [ValueError]
    and starts no process.  Otherwise the command runs to its end; its
    output is decoded, which may raise; then, with [check], a non-zero
    return code is raised as [CalledProcessError]. *)
Definition subprocess_run (cmd : string) : M CompletedProcess :=
  fun w =>
    if has_nul cmd then (Raise (ValueError "embedded null byte"), w)
    else
      let '(r, fs') := shell P cmd (fs w) in
      let w' := World fs' (out w) (log w ++ [EvRun cmd]) in
      match decode_output r with
      | Raise e => (Raise e, w')
      | Ok result =>
          if (cp_returncode result =? 0)%Z then (Ok result, w')
          else (Raise (CalledProcessError cmd (cp_returncode result)
                                          (cp_stdout result) (cp_stderr result)), w')
      end.

(** [str(e)]. *)
Definition exn_str (e : exn) : string :=
  match e with
  | CalledProcessError cmd rc _ _ =>
      if (rc <? 0)%Z then
        match signal_repr P (- rc) with
        | Some r => "Command '" +:+ cmd +:+ "' died with " +:+ r +:+ "."
        | None =>
            "Command '" +:+ cmd +:+ "' died with unknown signal "
              +:+ Py.str_of_Z (- rc) +:+ "."
        end
      else
        "Command '" +:+ cmd +:+ "' returned non-zero exit status "
          +:+ Py.str_of_Z rc +:+ "."
  | OSError msg => msg
  | ValueError msg => msg
  | TypeError msg => msg
  | SystemExit code => Py.str_of_Z code
  end.

(** [except subprocess.CalledProcessError as e]. *)
Definition except_CalledProcessError {A : Type}
    (handler : exn -> string -> M A) (e : exn) : option (M A) :=
  match e with
  | CalledProcessError _ _ _ stderr => Some (handler e stderr)
  | _ => None
  end.

(** [except Exception as e]: everything but [SystemExit]. *)
Definition except_Exception {A : Type} (handler : exn -> M A) (e : exn) : option (M A) :=
  match e with
  | SystemExit _ => None
  | _ => Some (handler e)
  end.

Definition run_command (cmd : string) (description : string) : M bool :=
  print ("🔧 " +:+ (if Py.truthy description then description else cmd)) ;;
  try_except
    (result <- subprocess_run cmd ;;
     (if Py.truthy (cp_stdout result)
      then print ("   ✅ " +:+ Py.strip (cp_stdout result))
      else ret tt) ;;
     ret true)
    (except_CalledProcessError (fun e stderr =>
       print ("   ❌ " +:+ (if Py.truthy stderr then Py.strip stderr else exn_str e)) ;;
       ret false)).

Definition required_files : list string :=
  [ "library.json";
    "src/Flexifi.h";
    "src/Flexifi.cpp";
    "src/TemplateManager.h";
    "src/TemplateManager.cpp";
    "src/StorageManager.h";
    "src/StorageManager.cpp";
    "src/PortalWebServer.h";
    "src/PortalWebServer.cpp";
    "src/FlexifiParameter.h";
    "src/FlexifiParameter.cpp";
    "README.md";
    "examples/basic_usage/basic_usage.ino";
    "examples/advanced_callbacks/advanced_callbacks.ino";
    "examples/state_machine/state_machine.ino" ].

(** The body of [for file in required_files]. *)
Definition check_required (file : string) (missing_files : list string)
    : M (list string) :=
  found <- path_exists file ;;
  if negb found then ret (missing_files ++ [file]) else ret missing_files.

Definition validate_structure : M bool :=
  print "📋 Validating package structure..." ;;
  missing_files <- for_in required_files check_required [] ;;
  if nonempty missing_files then
    print "❌ Missing required files:" ;;
    for_each missing_files (fun file => print ("   - " +:+ file)) ;;
    ret false
  else
    print "✅ All required files present" ;;
    ret true.

Definition embed_assets : M bool :=
  print "🎨 Embedding web assets..." ;;
  run_command "python3 tools/embed_assets.py" "Embedding web assets".

Definition header_file : string := "src/generated" +:+ "/" +:+ "web_assets.h".
Definition impl_file : string := "src/generated" +:+ "/" +:+ "web_assets.cpp".

Definition validate_generated_assets : M bool :=
  print "🔍 Validating generated assets..." ;;
  header_present <- path_exists header_file ;;
  if negb header_present then
    print "❌ Missing web_assets.h" ;; ret false
  else
    impl_present <- path_exists impl_file ;;
    if negb impl_present then
      print "❌ Missing web_assets.cpp" ;; ret false
    else
      header_size <- path_size header_file ;;
      impl_size <- path_size impl_file ;;
      if (header_size <? 1000)%nat then
        print ("❌ web_assets.h too small (" +:+ Py.str_of_nat header_size +:+ " bytes)") ;;
        ret false
      else if (impl_size <? 500)%nat then
        print ("❌ web_assets.cpp too small (" +:+ Py.str_of_nat impl_size +:+ " bytes)") ;;
        ret false
      else
        print ("✅ Generated assets validated ("
                 +:+ Py.str_of_nat (header_size + impl_size) +:+ " bytes total)") ;;
        ret true.

(** [obj[key] = value]: only a [dict] takes a string key. *)
Definition setitem (obj : json) (key : string) (value : json) : M json :=
  match obj with
  | JObj members => ret (JObj (<[key := value]> members))
  | JArr _ => raise (TypeError "list indices must be integers or slices, not str")
  | JStr _ => raise (TypeError "'str' object does not support item assignment")
  | JInt _ => raise (TypeError "'int' object does not support item assignment")
  | JFloat _ => raise (TypeError "'float' object does not support item assignment")
  | JBool _ => raise (TypeError "'bool' object does not support item assignment")
  | JNull => raise (TypeError "'NoneType' object does not support item assignment")
  end.

(** [with open(path, "r") as f: json.load(f)]. *)
Definition load_json (path : string) : M json :=
  text <- read_file path ;;
  match json_load P text with
  | Decoded doc => ret doc
  | Malformed msg => raise (ValueError msg)
  end.

(** [with open(path, "w") as f: json.dump(doc, f, indent=4)]. *)
Definition dump_json (path : string) (doc : json) : M unit :=
  open_write path ;;
  write_file path (json_dump P doc).

Definition update_version (version : option string) : M bool :=
  if negb (Py.truthy_opt version) then ret true
  else
    let version := default "" version in
    print ("📝 Updating version to " +:+ version +:+ "...") ;;
    try_except
      (library_config <- load_json "library.json" ;;
       library_config <- setitem library_config "version" (JStr version) ;;
       dump_json "library.json" library_config ;;
       print ("✅ Version updated to " +:+ version) ;;
       ret true)
      (except_Exception (fun e =>
         print ("❌ Failed to update version: " +:+ exn_str e) ;;
         ret false)).

Definition create_release_notes : M bool :=
  print "📋 Checking release notes..." ;;
  present <- path_exists "RELEASE_NOTES.md" ;;
  if present then
    print "✅ Release notes already exist, skipping generation" ;;
    ret true
  else
    print "⚠️ No RELEASE_NOTES.md found" ;;
    print "   Please create release notes manually before running prepare_release.py" ;;
    print "   This ensures you can craft proper release notes for your specific version" ;;
    ret false.

Definition temp_files : list string := [ "__pycache__"; "*.pyc"; ".DS_Store" ].

Definition cleanup_generated_files : M bool :=
  print "🧹 Cleaning up temporary files..." ;;
  for_each temp_files
    (fun pattern =>
       run_command ("find . -name '" +:+ pattern +:+ "' -delete")
                   ("Removing " +:+ pattern) ;;
       ret tt) ;;
  ret true.

(** The argument parsing at the head of [main], on [sys.argv]. *)
Definition parse_version (argv : list string) : option string :=
  if (1 <? length argv)%nat then
    if bool_decide (argv !! 1%nat = Some "--version") && (2 <? length argv)%nat
    then argv !! 2%nat
    else None
  else None.

Definition steps (version : option string) : list (string * M bool) :=
  [ ("Validating package structure", validate_structure);
    ("Embedding web assets", embed_assets);
    ("Validating generated assets", validate_generated_assets);
    ("Updating version", update_version version);
    ("Creating release notes", create_release_notes);
    ("Cleaning up", cleanup_generated_files) ].

(** The body of [for step_name, step_func in steps]. *)
Definition run_step (step : string * M bool) (failed_steps : list string)
    : M (list string) :=
  let '(step_name, step_func) := step in
  print (Py.nl +:+ "📋 " +:+ step_name +:+ "...") ;;
  succeeded <- step_func ;;
  if negb succeeded then
    print ("❌ " +:+ step_name +:+ " failed") ;;
    ret (failed_steps ++ [step_name])
  else
    print ("✅ " +:+ step_name +:+ " completed") ;;
    ret failed_steps.

Definition dquote : string := String (ascii_of_nat 34) "".

Definition main (argv : list string) : M unit :=
  print "🚀 Flexifi Release Preparation" ;;
  print (Py.str_mul "=" 50) ;;
  let version := parse_version argv in
  failed_steps <- for_in (steps version) run_step [] ;;
  print (Py.nl +:+ Py.str_mul "=" 50) ;;
  if nonempty failed_steps then
    print "❌ Release preparation failed!" ;;
    print "Failed steps:" ;;
    for_each failed_steps (fun step => print ("   - " +:+ step)) ;;
    raise (SystemExit 1)
  else
    print "✅ Release preparation completed successfully!" ;;
    print (Py.nl +:+ "📦 Ready for package publication:") ;;
    print "   1. Commit generated assets: git add src/generated/ && git commit" ;;
    print ("   2. Create tag: git tag -a v$(cat library.json | grep version | cut -d'"
             +:+ dquote +:+ "' -f4)") ;;
    print "   3. Push: git push && git push --tags" ;;
    print "   4. Publish to PlatformIO registry" ;;
    ret tt.

(** The exit status of [python3 tools/prepare_release.py argv...]: 0 when
    [main] returns, the code of [sys.exit], and 1 for any other exception
    that reaches the top level. *)
Definition exit_status (r : result unit) : Z :=
  match r with
  | Ok _ => 0
  | Raise (SystemExit code) => code
  | Raise _ => 1
  end.

Definition run_script (argv : list string) (w : world) : Z * world :=
  let '(r, w') := main argv w in (exit_status r, w').

End Script.

(** ** Vocabulary of the specification *)

(** A computation that always returns normally. *)
Definition total {A : Type} (m : M A) : Prop :=
  forall w, exists a w', m w = (Ok a, w').


(** The paths of a list that name nothing, in list order. *)
Definition missing (files : gmap string node) (paths : list string) : list string :=
  List.filter (fun p => negb (present files p)) paths.

(** The four ways the asset validator fails, and its success. *)
Definition assets_verdict (files : gmap string node) : bool * string :=
  match files !! header_file, files !! impl_file with
  | None, _ => (false, "❌ Missing web_assets.h")
  | Some _, None => (false, "❌ Missing web_assets.cpp")
  | Some h, Some i =>
      if (st_size h <? 1000)%nat then
        (false, "❌ web_assets.h too small (" +:+ Py.str_of_nat (st_size h) +:+ " bytes)")
      else if (st_size i <? 500)%nat then
        (false, "❌ web_assets.cpp too small (" +:+ Py.str_of_nat (st_size i) +:+ " bytes)")
      else
        (true, "✅ Generated assets validated ("
                 +:+ Py.str_of_nat (st_size h + st_size i) +:+ " bytes total)")
  end.

(** The system calls the asset validator makes before it answers. *)
Definition assets_calls (files : gmap string node) : list event :=
  match files !! header_file, files !! impl_file with
  | None, _ => [EvExists header_file]
  | Some _, None => [EvExists header_file; EvExists impl_file]
  | Some _, Some _ =>
      [EvExists header_file; EvExists impl_file; EvStat header_file; EvStat impl_file]
  end.

(** What the release notes checker prints after its heading. *)
Definition notes_lines (found : bool) : list string :=
  if found then ["✅ Release notes already exist, skipping generation"]
  else ["⚠️ No RELEASE_NOTES.md found";
        "   Please create release notes manually before running prepare_release.py";
        "   This ensures you can craft proper release notes for your specific version"].

(** [description or cmd]. *)
Definition title (cmd description : string) : string :=
  if Py.truthy description then description else cmd.

(** The line [run_command] prints once the command has finished. *)
Definition command_report (P : platform) (cmd : string) (r : CompletedProcess) : list string :=
  if (cp_returncode r =? 0)%Z then
    if Py.truthy (cp_stdout r) then ["   ✅ " +:+ Py.strip (cp_stdout r)] else []
  else
    ["   ❌ " +:+
       (if Py.truthy (cp_stderr r) then Py.strip (cp_stderr r)
        else exn_str P (CalledProcessError cmd (cp_returncode r)
                                           (cp_stdout r) (cp_stderr r)))].

(** What [subprocess.run] hands to [run_command] for a command started
    on given files: the decoded result, or the exception of a command
    that cannot be started or whose output cannot be decoded. *)
Definition command_result (P : platform) (cmd : string) (files : gmap string node)
    : result CompletedProcess :=
  if has_nul cmd then Raise (ValueError "embedded null byte")
  else decode_output P (fst (shell P cmd files)).

(** The files after the call, and the process it started if any. *)
Definition ran_files (P : platform) (cmd : string) (files : gmap string node)
    : gmap string node :=
  if has_nul cmd then files else snd (shell P cmd files).

Definition ran_calls (cmd : string) : list event :=
  if has_nul cmd then [] else [EvRun cmd].

(** Whether [run_command] returns for a command, true or false. *)
Definition readable (P : platform) (cmd : string) (files : gmap string node) : bool :=
  match command_result P cmd files with Ok _ => true | Raise _ => false end.

(** The world once a step has been announced, and once its verdict has
    been printed. *)
Definition announce (step_name : string) (w : world) : world :=
  World (fs w) (out w ++ [Py.nl +:+ "📋 " +:+ step_name +:+ "..."]) (log w).

Definition verdict_line (step_name : string) (succeeded : bool) : string :=
  if succeeded then "✅ " +:+ step_name +:+ " completed"
  else "❌ " +:+ step_name +:+ " failed".

Definition conclude (step_name : string) (succeeded : bool) (w : world) : world :=
  World (fs w) (out w ++ [verdict_line step_name succeeded]) (log w).

(** [executes steps w outcomes w']: started in [w], the steps were called
    one after the other, each exactly once and each in the world its
    predecessor left; [outcomes] pairs every step's name with what its
    call returned, and [w'] is the world after the last verdict. *)
Inductive executes :
  list (string * M bool) -> world -> list (string * bool) -> world -> Prop :=
| executes_done (w : world) :
    executes [] w [] w
| executes_step (step_name : string) (step_func : M bool) (rest : list (string * M bool))
                (w w1 w2 : world) (succeeded : bool) (outcomes : list (string * bool)) :
    step_func (announce step_name w) = (Ok succeeded, w1) ->
    executes rest (conclude step_name succeeded w1) outcomes w2 ->
    executes ((step_name, step_func) :: rest) w ((step_name, succeeded) :: outcomes) w2.

(** The names of the outcomes that are failures, in order. *)
Definition failed_names (outcomes : list (string * bool)) : list string :=
  map fst (List.filter (fun o => negb (snd o)) outcomes).

(** The world in which the first step is announced. *)
Definition banner (w : world) : world :=
  World (fs w) (out w ++ ["🚀 Flexifi Release Preparation"; Py.str_mul "=" 50]) (log w).

(** What [main] prints after the loop. *)
Definition summary (failed_steps : list string) : list string :=
  (Py.nl +:+ Py.str_mul "=" 50) ::
  (if nonempty failed_steps then
     "❌ Release preparation failed!" :: "Failed steps:"
       :: map (fun step => "   - " +:+ step) failed_steps
   else
     [ "✅ Release preparation completed successfully!";
       Py.nl +:+ "📦 Ready for package publication:";
       "   1. Commit generated assets: git add src/generated/ && git commit";
       "   2. Create tag: git tag -a v$(cat library.json | grep version | cut -d'"
         +:+ dquote +:+ "' -f4)";
       "   3. Push: git push && git push --tags";
       "   4. Publish to PlatformIO registry" ]).


(** ** Runs on concrete worlds *)

Module Scenario.

(** The manifest of the round-trip example, as [json.dump] lays it out
    with [indent=4]. *)
Definition render_manifest (version other : string) : string :=
  "{" +:+ Py.nl
    +:+ "    " +:+ dquote +:+ "version" +:+ dquote +:+ ": "
    +:+ dquote +:+ version +:+ dquote +:+ "," +:+ Py.nl
    +:+ "    " +:+ dquote +:+ "other" +:+ dquote +:+ ": "
    +:+ dquote +:+ other +:+ dquote +:+ Py.nl
    +:+ "}".

Definition manifest_doc : gmap string json :=
  <["version" := JStr "1.0.0"]> (<["other" := JStr "x"]> ∅).

(** A stand-in for the JSON codec that knows the manifests with the two
    string keys [version] and [other]. *)
Definition codec_load (text : string) : decoded :=
  if String.eqb text (render_manifest "1.0.0" "x") then Decoded (JObj manifest_doc)
  else Malformed "Expecting value: line 1 column 1 (char 0)".

Definition codec_dump (doc : json) : string :=
  match doc with
  | JObj members =>
      match members !! "version", members !! "other" with
      | Some (JStr version), Some (JStr other) => render_manifest version other
      | _, _ => "{}"
      end
  | _ => "null"
  end.

(** A shell whose build command writes the two generated files, just
    large enough, and whose other commands find nothing to do. *)
Definition working_shell (cmd : string) (files : gmap string node)
    : CompletedProcess * gmap string node :=
  if String.eqb cmd "python3 tools/embed_assets.py" then
    (Completed 0 ("Embedded 2 assets" +:+ Py.nl) "",
     <[header_file := File (Py.str_mul "h" 1000)]>
       (<[impl_file := File (Py.str_mul "c" 500)]> files))
  else (Completed 0 "" "", files).

(** A shell whose commands all exit with status 1 and print nothing. *)
Definition silent_failing_shell (cmd : string) (files : gmap string node)
    : CompletedProcess * gmap string node :=
  (Completed 1 "" "", files).

Definition signals (n : Z) : option string :=
  if (n =? 9)%Z then Some "<Signals.SIGKILL: 9>" else None.

(** A stand-in for the decoder of a UTF-8 locale: it rejects the lone
    byte 255 and takes every other output of these scenarios as it is. *)
Definition invalid_byte : string := String (ascii_of_nat 255) "".

Definition locale_decode (bytes : string) : decoding :=
  if String.eqb bytes invalid_byte then
    Undecodable "'utf-8' codec can't decode byte 0xff in position 0: invalid start byte"
  else Text bytes.

Definition working : platform :=
  Platform working_shell locale_decode signals codec_load codec_dump.

Definition silent_failure : platform :=
  Platform silent_failing_shell locale_decode signals codec_load codec_dump.

(** The working shell, except that the build command writes one byte
    that is not text before it exits with status 0. *)
Definition garbling_shell (cmd : string) (files : gmap string node)
    : CompletedProcess * gmap string node :=
  if String.eqb cmd "python3 tools/embed_assets.py" then
    (Completed 0 invalid_byte "",
     <[header_file := File (Py.str_mul "h" 1000)]>
       (<[impl_file := File (Py.str_mul "c" 500)]> files))
  else (Completed 0 "" "", files).

Definition garbled : platform :=
  Platform garbling_shell locale_decode signals codec_load codec_dump.

(** A checkout that has every required file and the release notes. *)
Definition checkout : gmap string node :=
  <["RELEASE_NOTES.md" := File "Notes"]>
    (<["library.json" := File (render_manifest "1.0.0" "x")]>
       (list_to_map (map (fun p => (p, File "")) required_files))).

Definition fresh (files : gmap string node) : world := World files [] [].

End Scenario.

(** ** Vocabulary for a whole run *)

(** The two kinds of command the script hands to the shell. *)
Definition build_cmd : string := "python3 tools/embed_assets.py".

Definition find_cmd (pattern : string) : string :=
  "find . -name '" +:+ pattern +:+ "' -delete".

(** The message of the [TypeError] that assigning a string key raises on
    a document that is not a [dict]. *)
Definition setitem_error (doc : json) : option string :=
  match doc with
  | JObj _ => None
  | JArr _ => Some "list indices must be integers or slices, not str"
  | JStr _ => Some "'str' object does not support item assignment"
  | JInt _ => Some "'int' object does not support item assignment"
  | JFloat _ => Some "'float' object does not support item assignment"
  | JBool _ => Some "'bool' object does not support item assignment"
  | JNull => Some "'NoneType' object does not support item assignment"
  end.

(** Why the manifest cannot be updated, when it cannot: it is missing, it
    is a directory, it does not parse, or it is not an object. *)
Definition version_failure (P : platform) (files : gmap string node) : option string :=
  match files !! "library.json" with
  | None => Some "[Errno 2] No such file or directory: 'library.json'"
  | Some (Dir _) => Some "[Errno 21] Is a directory: 'library.json'"
  | Some (File text) =>
      match json_load P text with
      | Malformed msg => Some msg
      | Decoded doc => setitem_error doc
      end
  end.

(** The files once the manifest has been rewritten with a version. *)
Definition updated_manifest (P : platform) (version : string) (files : gmap string node)
    : gmap string node :=
  match files !! "library.json" with
  | Some (File text) =>
      match json_load P text with
      | Decoded (JObj members) =>
          <["library.json" :=
              File (json_dump P (JObj (<["version" := JStr version]> members)))]> files
      | _ => files
      end
  | _ => files
  end.

(** The four effects of the version step: its result, the files it leaves,
    the lines it prints and the system calls it makes. *)
Definition version_ok (P : platform) (version : option string) (files : gmap string node)
    : bool :=
  if Py.truthy_opt version then
    match version_failure P files with None => true | Some _ => false end
  else true.

Definition version_files (P : platform) (version : option string) (files : gmap string node)
    : gmap string node :=
  if Py.truthy_opt version then updated_manifest P (default "" version) files
  else files.

Definition version_lines (P : platform) (version : option string) (files : gmap string node)
    : list string :=
  if Py.truthy_opt version then
    [ "📝 Updating version to " +:+ default "" version +:+ "...";
      match version_failure P files with
      | None => "✅ Version updated to " +:+ default "" version
      | Some reason => "❌ Failed to update version: " +:+ reason
      end ]
  else [].

Definition version_calls (P : platform) (version : option string) (files : gmap string node)
    : list event :=
  if Py.truthy_opt version then
    match version_failure P files with
    | None => [EvOpenRead "library.json"; EvOpenWrite "library.json"; EvWrite "library.json"]
    | Some _ => [EvOpenRead "library.json"]
    end
  else [].

(** The housekeeping loop over a list of patterns, started on given
    files: how it ends, the files it leaves, the lines [run_command]
    prints and the processes started.  The loop stops at the first
    command for which [run_command] raises. *)
Fixpoint sweep_result (P : platform) (patterns : list string) (files : gmap string node)
    : result unit :=
  match patterns with
  | [] => Ok tt
  | pattern :: rest =>
      match command_result P (find_cmd pattern) files with
      | Raise e => Raise e
      | Ok _ => sweep_result P rest (ran_files P (find_cmd pattern) files)
      end
  end.

Fixpoint sweep_files (P : platform) (patterns : list string) (files : gmap string node)
    : gmap string node :=
  match patterns with
  | [] => files
  | pattern :: rest =>
      match command_result P (find_cmd pattern) files with
      | Raise _ => ran_files P (find_cmd pattern) files
      | Ok _ => sweep_files P rest (ran_files P (find_cmd pattern) files)
      end
  end.

Fixpoint sweep_lines (P : platform) (patterns : list string) (files : gmap string node)
    : list string :=
  match patterns with
  | [] => []
  | pattern :: rest =>
      ("🔧 " +:+ "Removing " +:+ pattern)
        :: match command_result P (find_cmd pattern) files with
           | Raise _ => []
           | Ok r =>
               command_report P (find_cmd pattern) r
                 ++ sweep_lines P rest (ran_files P (find_cmd pattern) files)
           end
  end.

Fixpoint sweep_calls (P : platform) (patterns : list string) (files : gmap string node)
    : list event :=
  match patterns with
  | [] => []
  | pattern :: rest =>
      ran_calls (find_cmd pattern)
        ++ match command_result P (find_cmd pattern) files with
           | Raise _ => []
           | Ok _ => sweep_calls P rest (ran_files P (find_cmd pattern) files)
           end
  end.

Definition sweep_readable (P : platform) (patterns : list string)
    (files : gmap string node) : bool :=
  match sweep_result P patterns files with Ok _ => true | Raise _ => false end.

(** Whether every external command of a run hands decodable output back,
    so that no step raises: the build command on the files at the start,
    the three [find] commands on the files the version step left. *)
Definition run_completes (P : platform) (version : option string)
    (files : gmap string node) : bool :=
  readable P build_cmd files
  && sweep_readable P temp_files (version_files P version (snd (shell P build_cmd files))).

(** The outcomes, the system calls and the final files of a run of [main]
    in which no step raises, read off the files it starts with. *)
Definition run_outcomes (P : platform) (version : option string) (files : gmap string node)
    : list (string * bool) :=
  let built := shell P build_cmd files in
  [ ("Validating package structure", negb (nonempty (missing files required_files)));
    ("Embedding web assets", (cp_returncode (fst built) =? 0)%Z);
    ("Validating generated assets", fst (assets_verdict (snd built)));
    ("Updating version", version_ok P version (snd built));
    ("Creating release notes",
      present (version_files P version (snd built)) "RELEASE_NOTES.md");
    ("Cleaning up", true) ].

Definition run_calls (P : platform) (version : option string) (files : gmap string node)
    : list event :=
  let built := shell P build_cmd files in
  map EvExists required_files
    ++ [EvRun build_cmd]
    ++ assets_calls (snd built)
    ++ version_calls P version (snd built)
    ++ [EvExists "RELEASE_NOTES.md"]
    ++ map (fun pattern => EvRun (find_cmd pattern)) temp_files.

Definition run_files (P : platform) (version : option string) (files : gmap string node)
    : gmap string node :=
  sweep_files P temp_files (version_files P version (snd (shell P build_cmd files))).

(** The system calls of any run of [main], also of one that a raising
    step cuts short. *)
Definition run_log (P : platform) (version : option string) (files : gmap string node)
    : list event :=
  let built := snd (shell P build_cmd files) in
  map EvExists required_files
    ++ [EvRun build_cmd]
    ++ (if readable P build_cmd files then
          assets_calls built
            ++ version_calls P version built
            ++ [EvExists "RELEASE_NOTES.md"]
            ++ sweep_calls P temp_files (version_files P version built)
        else []).

(** Whether a system call opens a file for writing or writes to it. *)
Definition writes_to (e : event) : option string :=
  match e with
  | EvOpenWrite path => Some path
  | EvWrite path => Some path
  | _ => None
  end.

(** ** More concrete worlds *)

Module Fixtures.

(** A stand-in codec that reads the two-key manifest at versions 1.0.0 and
    1.2.0 and the empty array, and rejects every other text. *)
Definition array_codec_load (text : string) : decoded :=
  if String.eqb text (Scenario.render_manifest "1.0.0" "x") then
    Decoded (JObj Scenario.manifest_doc)
  else if String.eqb text (Scenario.render_manifest "1.2.0" "x") then
    Decoded (JObj (<["version" := JStr "1.2.0"]> Scenario.manifest_doc))
  else if String.eqb text "[]" then Decoded (JArr [])
  else Malformed "Expecting value: line 1 column 1 (char 0)".

Definition rereading : platform :=
  Platform Scenario.working_shell Scenario.locale_decode Scenario.signals
           array_codec_load Scenario.codec_dump.


(** A step that fails and one that succeeds, without touching the world. *)
Definition failing_step : string * M bool := ("Failing", ret false).
Definition passing_step : string * M bool := ("Passing", ret true).

(** A checkout whose generated files are both present and both too small. *)
Definition stunted : gmap string node :=
  <[header_file := File "h"]> (<[impl_file := File "c"]> Scenario.checkout).

End Fixtures.

(** ** Reasoning about the monad *)

Lemma present_true files p : present files p = true <-> is_Some (files !! p).
Proof. unfold present. rewrite bool_decide_eq_true. reflexivity. Qed.

Lemma present_false files p : present files p = false <-> files !! p = None.
Proof.
  unfold present. rewrite bool_decide_eq_false, eq_None_not_Some. reflexivity.
Qed.

Lemma bind_ok {A B : Type} (m : M A) (k : A -> M B) w a w' :
  m w = (Ok a, w') -> bind m k w = k a w'.
Proof. intros H. unfold bind. rewrite H. reflexivity. Qed.

Lemma bind_raise {A B : Type} (m : M A) (k : A -> M B) w e w' :
  m w = (Raise e, w') -> bind m k w = (Raise e, w').
Proof. intros H. unfold bind. rewrite H. reflexivity. Qed.

Lemma try_caught {A : Type} (body : M A) handler w e w' h :
  body w = (Raise e, w') -> handler e = Some h -> try_except body handler w = h w'.
Proof. intros H1 H2. unfold try_except. rewrite H1, H2. reflexivity. Qed.

Lemma try_ok {A : Type} (body : M A) handler w a w' :
  body w = (Ok a, w') -> try_except body handler w = (Ok a, w').
Proof. intros H. unfold try_except. rewrite H. reflexivity. Qed.

(** Reassociate the console and the call log to the right. *)
Ltac norm_lists :=
  repeat rewrite <- (app_assoc (A:=string));
  repeat rewrite <- (app_assoc (A:=event));
  cbn [app].

Lemma for_each_print (f : string -> string) items w :
  for_each items (fun x => print (f x)) w
  = (Ok tt, World (fs w) (out w ++ map f items) (log w)).
Proof.
  unfold for_each. revert w.
  induction items as [|x items IH]; intros w; cbn [for_in map].
  - unfold ret. rewrite app_nil_r. destruct w; reflexivity.
  - erewrite bind_ok by reflexivity. rewrite IH. cbn [fs out log].
    rewrite <- app_assoc. reflexivity.
Qed.

(** ** The steps, one by one *)

Section Steps.

Context (P : platform).

(** *** Structural validator *)

Lemma missing_nil files paths :
  missing files paths = [] <-> forall p, In p paths -> is_Some (files !! p).
Proof.
  unfold missing. induction paths as [|q paths IH]; cbn [List.filter].
  - split; [intros _ p [] | reflexivity].
  - destruct (present files q) eqn:Hq; cbn [negb].
    + rewrite IH. apply present_true in Hq. split.
      * intros H p [<- | Hp]; auto.
      * intros H p Hp. apply H. right. exact Hp.
    + split; [discriminate |]. intros H. exfalso.
      apply present_false in Hq. destruct (H q (or_introl eq_refl)) as [n Hn].
      congruence.
Qed.

Lemma check_required_eq file acc w :
  check_required file acc w
  = (Ok (if present (fs w) file then acc else acc ++ [file]),
     syscall (EvExists file) w).
Proof.
  unfold check_required, bind, path_exists, ret.
  destruct (present (fs w) file); reflexivity.
Qed.

Lemma scan_required paths acc w :
  for_in paths check_required acc w
  = (Ok (acc ++ missing (fs w) paths),
     World (fs w) (out w) (log w ++ map EvExists paths)).
Proof.
  revert acc w. induction paths as [|q paths IH]; intros acc w; cbn [for_in].
  - unfold ret. cbn [missing List.filter map]. rewrite !app_nil_r.
    destruct w; reflexivity.
  - erewrite bind_ok by apply check_required_eq.
    rewrite IH. unfold missing. cbn [List.filter map fs out log syscall].
    destruct (present (fs w) q); cbn [negb]; norm_lists; reflexivity.
Qed.

Lemma missing_In files paths p :
  In p (missing files paths) <-> In p paths /\ files !! p = None.
Proof.
  unfold missing. rewrite filter_In, negb_true_iff, present_false. reflexivity.
Qed.

Lemma nonempty_false {A : Type} (l : list A) : nonempty l = false <-> l = [].
Proof. destruct l; cbn; split; congruence. Qed.

Lemma validate_structure_eq (w : world) :
  validate_structure w
  = (Ok (negb (nonempty (missing (fs w) required_files))),
     World (fs w)
       (out w ++ "📋 Validating package structure..." ::
          (if nonempty (missing (fs w) required_files)
           then "❌ Missing required files:"
                  :: map (fun file => "   - " +:+ file) (missing (fs w) required_files)
           else ["✅ All required files present"]))
       (log w ++ map EvExists required_files)).
Proof.
  unfold validate_structure.
  erewrite bind_ok by reflexivity.
  erewrite bind_ok by apply scan_required.
  cbn [app fs out log].
  destruct (nonempty (missing (fs w) required_files)) eqn:Hne; cbn [negb].
  - erewrite bind_ok by reflexivity.
    erewrite bind_ok by apply for_each_print.
    unfold ret. cbn [fs out log]. norm_lists. reflexivity.
  - erewrite bind_ok by reflexivity.
    unfold ret. cbn [fs out log]. norm_lists. reflexivity.
Qed.

(** C6. The structural validator returns true exactly when every path of
    [required_files] exists.  It tests all fifteen paths whatever it
    finds, and when it returns false the lines it prints after the
    heading name every missing path, in list order; it changes no file. *)
Theorem validate_structure_reports_every_missing_path (w : world) :
  let absent := missing (fs w) required_files in
  validate_structure w
  = (Ok (negb (nonempty absent)),
     World (fs w)
       (out w ++ "📋 Validating package structure..." ::
          (if nonempty absent
           then "❌ Missing required files:" :: map (fun file => "   - " +:+ file) absent
           else ["✅ All required files present"]))
       (log w ++ map EvExists required_files))
  /\ (negb (nonempty absent) = true
      <-> forall p, In p required_files -> is_Some (fs w !! p))
  /\ (forall p, In p absent <-> In p required_files /\ fs w !! p = None).
Proof.
  intros absent. split; [apply validate_structure_eq | split].
  - rewrite negb_true_iff, nonempty_false. apply missing_nil.
  - intros p. apply missing_In.
Qed.

(** *** Asset validator *)

Lemma validate_generated_assets_eq (w : world) :
  validate_generated_assets w
  = (Ok (fst (assets_verdict (fs w))),
     World (fs w)
       (out w ++ ["🔍 Validating generated assets..."; snd (assets_verdict (fs w))])
       (log w ++ assets_calls (fs w))).
Proof.
  unfold validate_generated_assets, assets_verdict, assets_calls.
  unfold bind, print, path_exists, path_size, present, syscall, ret.
  cbn [fs out log].
  destruct (fs w !! header_file) as [h|] eqn:Hh.
  - rewrite bool_decide_eq_true_2 by eauto. cbn [negb].
    destruct (fs w !! impl_file) as [i|] eqn:Hi.
    + rewrite bool_decide_eq_true_2 by eauto. cbn [negb fs out log].
      rewrite Hh. cbn [fs out log]. rewrite Hi.
      destruct (st_size h <? 1000)%nat; [| destruct (st_size i <? 500)%nat];
        cbn [fst snd fs out log]; norm_lists; reflexivity.
    + rewrite bool_decide_eq_false_2 by (cbn [fs]; intros [? ?]; congruence).
      cbn [negb fst snd fs out log]. norm_lists. reflexivity.
  - rewrite bool_decide_eq_false_2 by (cbn [fs]; intros [? ?]; congruence).
    cbn [negb fst snd fs out log]. norm_lists. reflexivity.
Qed.

Lemma assets_verdict_true files :
  fst (assets_verdict files) = true
  <-> exists h i,
        files !! header_file = Some h /\ files !! impl_file = Some i
        /\ 1000 <= st_size h /\ 500 <= st_size i.
Proof.
  unfold assets_verdict.
  destruct (files !! header_file) as [h|]; [destruct (files !! impl_file) as [i|] |].
  - destruct (Nat.ltb_spec (st_size h) 1000); [| destruct (Nat.ltb_spec (st_size i) 500)];
      cbn [fst]; (split; [try discriminate | intros (h' & i' & [= <-] & [= <-] & ? & ?)]);
      try lia; try reflexivity.
    intros _. exists h, i. auto.
  - cbn [fst]. split; [discriminate | intros (? & ? & _ & ? & _); discriminate].
  - cbn [fst]. split; [discriminate | intros (? & ? & ? & _); discriminate].
Qed.

(** C5. The asset validator returns true exactly when both generated
    paths exist, the declarations file has at least 1000 bytes and the
    implementation file at least 500.  With the implementation file at
    its threshold, 999 bytes of declarations fail and 1000 pass.  On
    success the second line printed carries the sum of the two sizes.
    No file is changed. *)
Theorem validate_generated_assets_thresholds (w : world) :
  exists (ok : bool) (line : string),
    validate_generated_assets w
    = (Ok ok,
       World (fs w) (out w ++ ["🔍 Validating generated assets..."; line])
             (log w ++ assets_calls (fs w)))
    /\ (ok = true
        <-> exists h i,
              fs w !! header_file = Some h /\ fs w !! impl_file = Some i
              /\ 1000 <= st_size h /\ 500 <= st_size i)
    /\ (forall h i,
          fs w !! header_file = Some h -> fs w !! impl_file = Some i ->
          500 <= st_size i ->
          (st_size h = 999 -> ok = false) /\ (st_size h = 1000 -> ok = true))
    /\ (forall h i,
          fs w !! header_file = Some h -> fs w !! impl_file = Some i ->
          ok = true ->
          line = "✅ Generated assets validated ("
                   +:+ Py.str_of_nat (st_size h + st_size i) +:+ " bytes total)").
Proof.
  exists (fst (assets_verdict (fs w))), (snd (assets_verdict (fs w))).
  split; [apply validate_generated_assets_eq |].
  split; [apply assets_verdict_true |].
  split.
  - intros h i Hh Hi Hsz. split; intros Hn.
    + apply not_true_is_false. rewrite assets_verdict_true.
      intros (h' & i' & Hh' & Hi' & ? & ?).
      rewrite Hh in Hh'. injection Hh' as <-. lia.
    + apply assets_verdict_true. exists h, i. repeat split; auto; lia.
  - intros h i Hh Hi. unfold assets_verdict. rewrite Hh, Hi.
    destruct (st_size h <? 1000)%nat; [| destruct (st_size i <? 500)%nat];
      cbn [fst snd]; try discriminate. reflexivity.
Qed.

(** *** Release notes checker *)

Lemma create_release_notes_eq (w : world) :
  create_release_notes w
  = (Ok (present (fs w) "RELEASE_NOTES.md"),
     World (fs w)
       (out w ++ "📋 Checking release notes..."
                  :: notes_lines (present (fs w) "RELEASE_NOTES.md"))
       (log w ++ [EvExists "RELEASE_NOTES.md"])).
Proof.
  unfold create_release_notes, notes_lines, bind, print, path_exists, syscall, ret.
  cbn [fs out log].
  destruct (present (fs w) "RELEASE_NOTES.md"); cbn [fs out log];
    norm_lists; reflexivity.
Qed.

(** C9. The release notes checker returns true when [RELEASE_NOTES.md]
    exists and false when it does not, after printing the warning that
    asks for the file to be written by hand.  Either way its only system
    call is the existence test and the file system is left as it was:
    the notes file is neither created nor written. *)
Theorem create_release_notes_only_checks (w : world) :
  exists (found : bool) (w' : world),
    create_release_notes w = (Ok found, w')
    /\ (found = true <-> is_Some (fs w !! "RELEASE_NOTES.md"))
    /\ (found = false <-> fs w !! "RELEASE_NOTES.md" = None)
    /\ fs w' = fs w
    /\ log w' = log w ++ [EvExists "RELEASE_NOTES.md"]
    /\ out w' = out w ++ "📋 Checking release notes..." :: notes_lines found
    /\ notes_lines false
       = ["⚠️ No RELEASE_NOTES.md found";
          "   Please create release notes manually before running prepare_release.py";
          "   This ensures you can craft proper release notes for your specific version"].
Proof.
  eexists _, _. split; [apply create_release_notes_eq |].
  cbn [fs out log].
  split; [apply present_true |]. split; [apply present_false |].
  repeat split.
Qed.

(** *** Manifest version updater *)

(** C4. Without a version the updater returns true at once and the world
    is what it was: every byte of [library.json] and of every other file,
    the console, and the log of system calls, to which no read and no
    write has been added.  A run whose arguments are only the program
    name has no version. *)
Theorem update_version_none_is_noop (w : world) :
  update_version P None w = (Ok true, w)
  /\ fs (snd (update_version P None w)) !! "library.json" = fs w !! "library.json"
  /\ log (snd (update_version P None w)) = log w
  /\ out (snd (update_version P None w)) = out w
  /\ (forall prog, parse_version [prog] = None)
  /\ parse_version [] = None.
Proof. repeat split; reflexivity. Qed.

Lemma falsy_version (version : option string) :
  Py.truthy_opt version = false <-> version = None \/ version = Some "".
Proof.
  destruct version as [[|c s]|]; cbn; split; intros H; auto;
    try discriminate; destruct H as [H | H]; discriminate.
Qed.

(** C10. A falsy version, which is [None] or the empty string, takes the
    no-op branch: the updater returns true and leaves the world, the
    manifest included, untouched; and [--version] followed by an empty
    argument is parsed to the empty string, so that run is such a
    case. *)
Theorem update_version_falsy_is_noop (version : option string) (w : world) :
  Py.truthy_opt version = false ->
  (version = None \/ version = Some "")
  /\ update_version P version w = (Ok true, w)
  /\ (forall prog rest, parse_version (prog :: "--version" :: "" :: rest) = Some "")
  /\ (forall prog rest,
        update_version P (parse_version (prog :: "--version" :: "" :: rest)) w
        = (Ok true, w)).
Proof.
  intros H. split; [apply falsy_version, H |].
  split; [unfold update_version; rewrite H; reflexivity |].
  split; reflexivity.
Qed.

Lemma truthy_nonempty (s : string) : s <> "" -> Py.truthy s = true.
Proof. destruct s; [congruence | reflexivity]. Qed.

Lemma dump_json_eq path doc w :
  (forall size, fs w !! path <> Some (Dir size)) ->
  dump_json P path doc w
  = (Ok tt,
     World (<[path := File (json_dump P doc)]> (fs w)) (out w)
           (log w ++ [EvOpenWrite path; EvWrite path])).
Proof.
  intros Hdir. unfold dump_json, bind, open_write, write_file.
  destruct (fs w !! path) as [[data|size]|] eqn:Hp;
    try (exfalso; apply (Hdir size); reflexivity);
    cbn [fs out log]; rewrite lookup_insert_eq, insert_insert_eq;
    norm_lists; reflexivity.
Qed.

(** C3, as the code has it.  For a manifest that is a JSON object and a
    version string that is not empty, the updater returns true and
    writes back the document it read with the key [version] set to that
    string: every other key keeps its value, and no other file
    changes. *)
Theorem update_version_sets_only_version
    (w : world) (text version : string) (members : gmap string json) :
  version <> "" ->
  fs w !! "library.json" = Some (File text) ->
  json_load P text = Decoded (JObj members) ->
  let updated := <["version" := JStr version]> members in
  update_version P (Some version) w
  = (Ok true,
     World (<["library.json" := File (json_dump P (JObj updated))]> (fs w))
           (out w ++ ["📝 Updating version to " +:+ version +:+ "...";
                      "✅ Version updated to " +:+ version])
           (log w ++ [EvOpenRead "library.json"; EvOpenWrite "library.json";
                      EvWrite "library.json"]))
  /\ updated !! "version" = Some (JStr version)
  /\ (forall key, key <> "version" -> updated !! key = members !! key).
Proof.
  intros Hv Hfile Hjson updated. split; [| split].
  - unfold update_version. cbn [Py.truthy_opt]. rewrite (truthy_nonempty _ Hv).
    cbn [negb default].
    erewrite bind_ok by reflexivity.
    erewrite try_ok; [reflexivity |].
    erewrite bind_ok; cycle 1.
    { unfold load_json. erewrite bind_ok; cycle 1.
      - unfold read_file. cbn [fs]. rewrite Hfile. reflexivity.
      - rewrite Hjson. reflexivity. }
    erewrite bind_ok by reflexivity.
    erewrite bind_ok; cycle 1.
    { apply dump_json_eq. cbn [fs syscall]. intros size. rewrite Hfile. discriminate. }
    erewrite bind_ok by reflexivity.
    unfold ret. cbn [fs out log syscall]. norm_lists. reflexivity.
  - apply lookup_insert_eq.
  - intros key Hk. apply lookup_insert_ne. congruence.
Qed.




Lemma ret_total {A : Type} (a : A) : total (ret a).
Proof. intros w. unfold ret. eauto. Qed.








(** *** External commands *)

Lemma command_result_raises cmd files e :
  command_result P cmd files = Raise e -> exists msg, e = ValueError msg.
Proof.
  unfold command_result, decode_output.
  destruct (has_nul cmd); [intros [= <-]; eauto |].
  destruct (text_decode P (cp_stdout (fst (shell P cmd files)))) as [stdout | msg];
    [| intros [= <-]; eauto].
  destruct (text_decode P (cp_stderr (fst (shell P cmd files)))) as [stderr | msg];
    [discriminate | intros [= <-]; eauto].
Qed.

Lemma command_result_returncode cmd files r :
  command_result P cmd files = Ok r ->
  has_nul cmd = false
  /\ decode_output P (fst (shell P cmd files)) = Ok r
  /\ cp_returncode r = cp_returncode (fst (shell P cmd files)).
Proof.
  unfold command_result. destruct (has_nul cmd); [discriminate |].
  intros H. split; [reflexivity |]. split; [exact H |].
  unfold decode_output in H.
  destruct (text_decode P (cp_stdout (fst (shell P cmd files)))); [| discriminate].
  destruct (text_decode P (cp_stderr (fst (shell P cmd files)))); [| discriminate].
  injection H as <-. reflexivity.
Qed.

(** [run_command] in full: what it returns or raises, the files and the
    process it leaves, and what it prints. *)
Lemma run_command_eq cmd description w :
  run_command P cmd description w
  = (match command_result P cmd (fs w) with
     | Ok r => Ok (cp_returncode r =? 0)%Z
     | Raise e => Raise e
     end,
     World (ran_files P cmd (fs w))
           (out w ++ ("🔧 " +:+ title cmd description)
                      :: match command_result P cmd (fs w) with
                         | Ok r => command_report P cmd r
                         | Raise _ => []
                         end)
           (log w ++ ran_calls cmd)).
Proof.
  unfold run_command, command_report, command_result, ran_files, ran_calls, title.
  erewrite bind_ok by reflexivity.
  unfold try_except, bind, subprocess_run, decode_output. cbn [fs out log].
  destruct (has_nul cmd); [cbn [except_CalledProcessError]; rewrite app_nil_r; reflexivity |].
  destruct (shell P cmd (fs w)) as [r files]. cbn [fst snd].
  destruct (text_decode P (cp_stdout r)) as [stdout | msg];
    [| cbn [except_CalledProcessError]; reflexivity].
  destruct (text_decode P (cp_stderr r)) as [stderr | msg];
    [| cbn [except_CalledProcessError]; reflexivity].
  cbn [cp_returncode cp_stdout cp_stderr].
  destruct (cp_returncode r =? 0)%Z.
  - unfold print, ret. cbn [cp_returncode cp_stdout cp_stderr fs out log].
    destruct (Py.truthy stdout); cbn [fs out log]; norm_lists; reflexivity.
  - cbn [except_CalledProcessError]. unfold print, ret.
    cbn [cp_returncode cp_stdout cp_stderr fs out log].
    norm_lists. reflexivity.
Qed.


Lemma embed_assets_eq (w : world) :
  embed_assets P w
  = (match command_result P "python3 tools/embed_assets.py" (fs w) with
     | Ok r => Ok (cp_returncode r =? 0)%Z
     | Raise e => Raise e
     end,
     World (snd (shell P "python3 tools/embed_assets.py" (fs w)))
           (out w ++ "🎨 Embedding web assets..." :: "🔧 Embedding web assets"
                      :: match command_result P "python3 tools/embed_assets.py" (fs w) with
                         | Ok r => command_report P "python3 tools/embed_assets.py" r
                         | Raise _ => []
                         end)
           (log w ++ [EvRun "python3 tools/embed_assets.py"])).
Proof.
  unfold embed_assets. erewrite bind_ok by reflexivity.
  rewrite run_command_eq. cbn [fs out log]. norm_lists. reflexivity.
Qed.

(** C7, as the code has it.  Whenever the output the build command
    wrote can be decoded as text, the asset build trigger, having run
    the command once, returns true exactly when its exit status is zero.
    On any other status it returns false and prints one reason line: the
    captured standard error with the white space at its ends removed
    when that text is not empty, and otherwise the description of the
    failed command that the exception gives, not the (empty) captured
    text. *)
Theorem embed_assets_true_iff_exit_zero (w : world) (r : CompletedProcess) :
  let cmd := "python3 tools/embed_assets.py" in
  decode_output P (fst (shell P cmd (fs w))) = Ok r ->
  embed_assets P w
  = (Ok (cp_returncode r =? 0)%Z,
     World (snd (shell P cmd (fs w)))
           (out w ++ "🎨 Embedding web assets..." :: "🔧 Embedding web assets"
                      :: command_report P cmd r)
           (log w ++ [EvRun cmd]))
  /\ cp_returncode r = cp_returncode (fst (shell P cmd (fs w)))
  /\ ((cp_returncode r =? 0)%Z = true <-> cp_returncode r = 0%Z)
  /\ (cp_returncode r <> 0%Z ->
      command_report P cmd r
      = ["   ❌ " +:+
           (if Py.truthy (cp_stderr r) then Py.strip (cp_stderr r)
            else exn_str P (CalledProcessError cmd (cp_returncode r)
                                               (cp_stdout r) (cp_stderr r)))]).
Proof.
  intros cmd Hdecode.
  assert (Hres : command_result P cmd (fs w) = Ok r) by exact Hdecode.
  split; [| split; [| split]].
  - rewrite embed_assets_eq. fold cmd. rewrite Hres. reflexivity.
  - apply (command_result_returncode _ _ _ Hres).
  - apply Z.eqb_eq.
  - intros Hrc. unfold command_report.
    apply Z.eqb_neq in Hrc. rewrite Hrc. reflexivity.
Qed.







End Steps.

(** ** The pipeline *)

Section Pipeline.

Context (P : platform).

Lemma run_step_eq step_name step_func failed_steps w succeeded w1 :
  step_func (announce step_name w) = (Ok succeeded, w1) ->
  run_step (step_name, step_func) failed_steps w
  = (Ok (failed_steps ++ failed_names [(step_name, succeeded)]),
     conclude step_name succeeded w1).
Proof.
  intros Hcall. unfold run_step.
  erewrite bind_ok by reflexivity.
  erewrite bind_ok by exact Hcall.
  unfold conclude, verdict_line, failed_names.
  destruct succeeded; cbn [negb List.filter map snd fst];
    erewrite bind_ok by reflexivity; unfold ret;
    rewrite ?app_nil_r; reflexivity.
Qed.

Lemma failed_names_cons name succeeded outcomes :
  failed_names ((name, succeeded) :: outcomes)
  = failed_names [(name, succeeded)] ++ failed_names outcomes.
Proof. unfold failed_names. destruct succeeded; reflexivity. Qed.

(** The loop of [main] computes what [executes] describes. *)
Lemma for_in_run_step steps w outcomes w' :
  executes steps w outcomes w' ->
  forall failed_steps,
    for_in steps run_step failed_steps w
    = (Ok (failed_steps ++ failed_names outcomes), w').
Proof.
  induction 1 as [w | name f rest w w1 w2 b os Hcall Hrest IH]; intros failed.
  - cbn [for_in]. unfold ret, failed_names. cbn. rewrite app_nil_r. reflexivity.
  - cbn [for_in]. erewrite bind_ok by (apply run_step_eq; exact Hcall).
    rewrite IH, (failed_names_cons name b os), app_assoc. reflexivity.
Qed.

(** Steps that return normally are all executed, however many fail. *)
Lemma executes_all steps :
  Forall (fun step => total (snd step)) steps ->
  forall w, exists outcomes w', executes steps w outcomes w'.
Proof.
  induction 1 as [| [name f] rest Hf _ IH]; intros w.
  - exists [], w. constructor.
  - destruct (Hf (announce name w)) as (b & w1 & Hcall).
    destruct (IH (conclude name b w1)) as (os & w2 & Hrest).
    exists ((name, b) :: os), w2. econstructor; eassumption.
Qed.

Lemma executes_names steps w outcomes w' :
  executes steps w outcomes w' -> map fst outcomes = map fst steps.
Proof. induction 1; cbn [map fst]; congruence. Qed.

Lemma executes_length steps w outcomes w' :
  executes steps w outcomes w' -> length outcomes = length steps.
Proof. induction 1; cbn [length]; congruence. Qed.



Lemma main_eq argv w outcomes w1 :
  executes (steps P (parse_version argv)) (banner w) outcomes w1 ->
  main P argv w
  = ((if nonempty (failed_names outcomes) then Raise (SystemExit 1) else Ok tt),
     World (fs w1) (out w1 ++ summary (failed_names outcomes)) (log w1)).
Proof.
  intros Hrun. unfold main.
  erewrite bind_ok by reflexivity.
  erewrite bind_ok by reflexivity.
  cbn [fs out log]. norm_lists.
  erewrite bind_ok.
  2:{ apply (for_in_run_step _ _ _ _ Hrun). }
  cbn [app]. erewrite bind_ok by reflexivity.
  unfold summary.
  destruct (nonempty (failed_names outcomes)).
  - erewrite bind_ok by reflexivity.
    erewrite bind_ok by reflexivity.
    erewrite bind_ok by apply for_each_print.
    unfold raise. cbn [fs out log]. norm_lists. reflexivity.
  - repeat (erewrite bind_ok by reflexivity).
    unfold ret. cbn [fs out log]. norm_lists. reflexivity.
Qed.

Lemma run_script_eq argv w outcomes w1 :
  executes (steps P (parse_version argv)) (banner w) outcomes w1 ->
  run_script P argv w
  = ((if nonempty (failed_names outcomes) then 1%Z else 0%Z),
     World (fs w1) (out w1 ++ summary (failed_names outcomes)) (log w1)).
Proof.
  intros Hrun. unfold run_script. rewrite (main_eq _ _ _ _ Hrun).
  destruct (nonempty (failed_names outcomes)); reflexivity.
Qed.

Lemma failed_names_In name outcomes :
  In name (failed_names outcomes) <-> In (name, false) outcomes.
Proof.
  unfold failed_names. rewrite in_map_iff. split.
  - intros ([n b] & <- & Hin). apply filter_In in Hin as [Hin Hb].
    cbn [snd fst] in *. apply negb_true_iff in Hb. subst b. exact Hin.
  - intros Hin. exists (name, false). split; [reflexivity |].
    apply filter_In. split; [exact Hin | reflexivity].
Qed.


Lemma run_step_raise name (f : M bool) failed_steps w e w1 :
  f (announce name w) = (Raise e, w1) ->
  run_step (name, f) failed_steps w = (Raise e, w1).
Proof.
  intros Hcall. unfold run_step. erewrite bind_ok by reflexivity.
  apply bind_raise. exact Hcall.
Qed.




(** [main] after its banner: the loop, then the summary or nothing. *)
Lemma main_unfold argv w :
  main P argv w
  = match for_in (steps P (parse_version argv)) run_step [] (banner w) with
    | (Ok failed_steps, w1) =>
        ((if nonempty failed_steps then Raise (SystemExit 1) else Ok tt),
         World (fs w1) (out w1 ++ summary failed_steps) (log w1))
    | (Raise e, w1) => (Raise e, w1)
    end.
Proof.
  unfold main.
  erewrite bind_ok by reflexivity.
  erewrite bind_ok by reflexivity.
  cbn [fs out log]. norm_lists.
  destruct (for_in (steps P (parse_version argv)) run_step [] (banner w))
    as [[failed_steps | e] w1] eqn:Hloop.
  - erewrite bind_ok by exact Hloop.
    erewrite bind_ok by reflexivity.
    unfold summary.
    destruct (nonempty failed_steps).
    + erewrite bind_ok by reflexivity.
      erewrite bind_ok by reflexivity.
      erewrite bind_ok by apply for_each_print.
      unfold raise. cbn [fs out log]. norm_lists. reflexivity.
    + repeat (erewrite bind_ok by reflexivity).
      unfold ret. cbn [fs out log]. norm_lists. reflexivity.
  - erewrite bind_raise by exact Hloop. reflexivity.
Qed.

(** X14. Any pipeline of [n] steps that return normally is executed to
    its end: every step is called once, in order, in the world its
    predecessor left, which gives [n] outcomes named as the steps are,
    whatever number of them are failures; and the loop hands back the
    names of exactly the steps that returned false. *)
Lemma pipeline_never_short_circuits steps w :
  Forall (fun step => total (snd step)) steps ->
  exists outcomes w',
    executes steps w outcomes w'
    /\ for_in steps run_step [] w = (Ok (failed_names outcomes), w')
    /\ length outcomes = length steps
    /\ map fst outcomes = map fst steps
    /\ (forall name, In name (failed_names outcomes) <-> In (name, false) outcomes).
Proof.
  intros Htotal. destruct (executes_all steps Htotal w) as (outcomes & w' & Hrun).
  exists outcomes, w'. split; [exact Hrun |].
  split; [apply (for_in_run_step _ _ _ _ Hrun) |].
  split; [apply (executes_length _ _ _ _ Hrun) |].
  split; [apply (executes_names _ _ _ _ Hrun) |].
  intros name. apply failed_names_In.
Qed.

(** C8. A version reaches the updater only from an argument vector
    whose first argument is [--version] and that has a second argument.
    Every other vector is taken as it is, without complaint: no version
    is parsed, the whole run is the run without arguments, and the
    version step changes nothing. *)
Theorem version_only_from_flag_pair (argv : list string) (w : world) :
  (forall prog version rest, argv <> prog :: "--version" :: version :: rest) ->
  parse_version argv = None
  /\ run_script P argv w = run_script P [] w
  /\ update_version P (parse_version argv) w = (Ok true, w)
  /\ (forall prog version rest,
        parse_version (prog :: "--version" :: version :: rest) = Some version).
Proof.
  intros Hform.
  assert (Hnone : parse_version argv = None).
  { unfold parse_version.
    destruct argv as [|prog [|flag [|version rest]]]; cbn; try reflexivity.
    - rewrite andb_false_r. reflexivity.
    - destruct (bool_decide (Some flag = Some "--version")) eqn:Hflag;
        [| reflexivity].
      apply bool_decide_eq_true in Hflag. injection Hflag as ->.
      exfalso. eapply Hform. reflexivity. }
  split; [exact Hnone |].
  split; [unfold run_script, main; rewrite Hnone; reflexivity |].
  split; [rewrite Hnone; reflexivity |].
  intros prog version rest. reflexivity.
Qed.

End Pipeline.

(** ** The steps in full *)

Section Effects.

Context (P : platform).

Lemma load_json_eq path w :
  load_json P path w
  = (match fs w !! path with
     | Some (File text) =>
         match json_load P text with
         | Decoded doc => Ok doc
         | Malformed msg => Raise (ValueError msg)
         end
     | Some (Dir _) => Raise (OSError ("[Errno 21] Is a directory: '" +:+ path +:+ "'"))
     | None => Raise (OSError ("[Errno 2] No such file or directory: '" +:+ path +:+ "'"))
     end,
     syscall (EvOpenRead path) w).
Proof.
  unfold load_json, bind, read_file.
  destruct (fs w !! path) as [[text | size] |]; try reflexivity.
  destruct (json_load P text); reflexivity.
Qed.

Lemma update_version_eq version w :
  update_version P version w
  = (Ok (version_ok P version (fs w)),
     World (version_files P version (fs w))
           (out w ++ version_lines P version (fs w))
           (log w ++ version_calls P version (fs w))).
Proof.
  unfold update_version, version_ok, version_files, version_lines, version_calls.
  destruct (Py.truthy_opt version); cbn [negb];
    [| unfold ret; rewrite !app_nil_r; destruct w; reflexivity].
  erewrite bind_ok by reflexivity.
  set (v := default "" version).
  unfold version_failure, updated_manifest.
  destruct (fs w !! "library.json") as [[text | size] |] eqn:Hfile.
  - destruct (json_load P text) as [doc | msg] eqn:Hload.
    + destruct doc;
        try (erewrite try_caught;
             [| erewrite bind_ok;
                [| rewrite load_json_eq; cbn [fs]; rewrite Hfile, Hload; reflexivity];
                erewrite bind_raise by reflexivity; reflexivity
              | reflexivity];
             unfold bind, print, ret; cbn [fs out log syscall setitem_error];
             norm_lists; reflexivity).
      erewrite try_ok.
      2:{ erewrite bind_ok
            by (rewrite load_json_eq; cbn [fs]; rewrite Hfile, Hload; reflexivity).
          erewrite bind_ok by reflexivity.
          erewrite bind_ok.
          2:{ apply dump_json_eq. cbn [fs syscall]. intros size. rewrite Hfile. discriminate. }
          erewrite bind_ok by reflexivity. reflexivity. }
      cbn [fs out log syscall setitem_error]. norm_lists. reflexivity.
    + erewrite try_caught;
        [| erewrite bind_raise;
           [reflexivity
           | rewrite load_json_eq; cbn [fs]; rewrite Hfile, Hload; reflexivity]
         | reflexivity].
      unfold bind, print, ret. cbn [fs out log syscall]. norm_lists. reflexivity.
  - erewrite try_caught;
      [| erewrite bind_raise;
         [reflexivity | rewrite load_json_eq; cbn [fs]; rewrite Hfile; reflexivity]
       | reflexivity].
    unfold bind, print, ret. cbn [fs out log syscall]. norm_lists. reflexivity.
  - erewrite try_caught;
      [| erewrite bind_raise;
         [reflexivity | rewrite load_json_eq; cbn [fs]; rewrite Hfile; reflexivity]
       | reflexivity].
    unfold bind, print, ret. cbn [fs out log syscall]. norm_lists. reflexivity.
Qed.

Lemma readable_result cmd files :
  readable P cmd files = true ->
  exists r,
    command_result P cmd files = Ok r
    /\ has_nul cmd = false
    /\ cp_returncode r = cp_returncode (fst (shell P cmd files)).
Proof.
  unfold readable. destruct (command_result P cmd files) as [r | e] eqn:Hres;
    [| discriminate].
  intros _. exists r. split; [reflexivity |].
  destruct (command_result_returncode P _ _ _ Hres) as (Hnul & _ & Hrc). auto.
Qed.

(** The housekeeping loop in full, for any list of patterns. *)
Lemma sweep_loop patterns w :
  for_in patterns
    (fun pattern _ =>
       run_command P ("find . -name '" +:+ pattern +:+ "' -delete")
                   ("Removing " +:+ pattern) ;;
       ret tt)
    tt w
  = (sweep_result P patterns (fs w),
     World (sweep_files P patterns (fs w))
           (out w ++ sweep_lines P patterns (fs w))
           (log w ++ sweep_calls P patterns (fs w))).
Proof.
  revert w. induction patterns as [| pattern rest IH]; intros w;
    cbn [for_in sweep_result sweep_files sweep_lines sweep_calls].
  - unfold ret. rewrite !app_nil_r. destruct w; reflexivity.
  - fold (find_cmd pattern).
    destruct (command_result P (find_cmd pattern) (fs w)) as [r | e] eqn:Hres.
    + erewrite bind_ok.
      2:{ erewrite bind_ok by (rewrite run_command_eq, Hres; reflexivity). reflexivity. }
      rewrite IH. cbn [fs out log]. unfold title. cbn [Py.truthy String.append].
      norm_lists. reflexivity.
    + erewrite bind_raise.
      2:{ erewrite bind_raise by (rewrite run_command_eq, Hres; reflexivity). reflexivity. }
      unfold title. cbn [Py.truthy String.append]. rewrite app_nil_r. reflexivity.
Qed.

Lemma cleanup_generated_files_effect w :
  cleanup_generated_files P w
  = (match sweep_result P temp_files (fs w) with
     | Ok _ => Ok true
     | Raise e => Raise e
     end,
     World (sweep_files P temp_files (fs w))
           (out w ++ "🧹 Cleaning up temporary files..." :: sweep_lines P temp_files (fs w))
           (log w ++ sweep_calls P temp_files (fs w))).
Proof.
  unfold cleanup_generated_files, for_each.
  erewrite bind_ok by reflexivity.
  destruct (sweep_result P temp_files (fs w)) as [[] | e] eqn:Hres.
  - erewrite bind_ok by (rewrite sweep_loop; cbn [fs]; rewrite Hres; reflexivity).
    unfold ret. cbn [fs out log]. norm_lists. reflexivity.
  - erewrite bind_raise by (rewrite sweep_loop; cbn [fs]; rewrite Hres; reflexivity).
    cbn [fs out log]. norm_lists. reflexivity.
Qed.

(** When every command of the loop hands its output back, a process is
    started for each pattern. *)
Lemma sweep_readable_calls patterns files :
  sweep_readable P patterns files = true ->
  sweep_result P patterns files = Ok tt
  /\ sweep_calls P patterns files = map (fun pattern => EvRun (find_cmd pattern)) patterns.
Proof.
  unfold sweep_readable. revert files.
  induction patterns as [| pattern rest IH]; intros files;
    cbn [sweep_result sweep_calls map]; [auto |].
  destruct (command_result P (find_cmd pattern) files) as [r | e] eqn:Hres;
    [| discriminate].
  intros Hrest. destruct (IH _ Hrest) as [Hok Hcalls].
  destruct (command_result_returncode P _ _ _ Hres) as (Hnul & _ & _).
  unfold ran_calls. rewrite Hnul, Hcalls. auto.
Qed.

Lemma sweep_result_raises patterns files e :
  sweep_result P patterns files = Raise e -> exists msg, e = ValueError msg.
Proof.
  revert files. induction patterns as [| pattern rest IH]; intros files;
    cbn [sweep_result]; [discriminate |].
  destruct (command_result P (find_cmd pattern) files) as [r | e'] eqn:Hres.
  - apply IH.
  - intros [= <-]. eapply command_result_raises. exact Hres.
Qed.

(** Each step as a function of the files it finds: its result, the files
    it leaves and the system calls it adds. *)
Lemma validate_structure_effect files w :
  fs w = files ->
  exists w1,
    validate_structure w = (Ok (negb (nonempty (missing files required_files))), w1)
    /\ fs w1 = files /\ log w1 = log w ++ map EvExists required_files.
Proof. intros <-. rewrite validate_structure_eq. eauto. Qed.

Lemma embed_assets_effect files :
  readable P build_cmd files = true ->
  forall w, fs w = files ->
  exists w1,
    embed_assets P w = (Ok (cp_returncode (fst (shell P build_cmd files)) =? 0)%Z, w1)
    /\ fs w1 = snd (shell P build_cmd files) /\ log w1 = log w ++ [EvRun build_cmd].
Proof.
  intros Hread w <-. destruct (readable_result _ _ Hread) as (r & Hres & _ & Hrc).
  rewrite embed_assets_eq. fold build_cmd. rewrite Hres, Hrc. eauto.
Qed.

Lemma embed_assets_raises files e :
  command_result P build_cmd files = Raise e ->
  forall w, fs w = files ->
  exists w1,
    embed_assets P w = (Raise e, w1) /\ log w1 = log w ++ [EvRun build_cmd].
Proof.
  intros Hres w <-. rewrite embed_assets_eq. fold build_cmd. rewrite Hres. eauto.
Qed.

Lemma validate_generated_assets_effect files w :
  fs w = files ->
  exists w1,
    validate_generated_assets w = (Ok (fst (assets_verdict files)), w1)
    /\ fs w1 = files /\ log w1 = log w ++ assets_calls files.
Proof. intros <-. rewrite validate_generated_assets_eq. eauto. Qed.

Lemma update_version_effect version files w :
  fs w = files ->
  exists w1,
    update_version P version w = (Ok (version_ok P version files), w1)
    /\ fs w1 = version_files P version files
    /\ log w1 = log w ++ version_calls P version files.
Proof. intros <-. rewrite update_version_eq. eauto. Qed.

Lemma create_release_notes_effect files w :
  fs w = files ->
  exists w1,
    create_release_notes w = (Ok (present files "RELEASE_NOTES.md"), w1)
    /\ fs w1 = files /\ log w1 = log w ++ [EvExists "RELEASE_NOTES.md"].
Proof. intros <-. rewrite create_release_notes_eq. eauto. Qed.

Lemma cleanup_generated_files_sweeps files :
  sweep_readable P temp_files files = true ->
  forall w, fs w = files ->
  exists w1,
    cleanup_generated_files P w = (Ok true, w1)
    /\ fs w1 = sweep_files P temp_files files
    /\ log w1 = log w ++ map (fun pattern => EvRun (find_cmd pattern)) temp_files.
Proof.
  intros Hread w <-. destruct (sweep_readable_calls _ _ Hread) as [Hres Hcalls].
  rewrite cleanup_generated_files_effect, Hres, Hcalls. eauto.
Qed.

Lemma cleanup_generated_files_raises files e :
  sweep_result P temp_files files = Raise e ->
  forall w, fs w = files ->
  exists w1,
    cleanup_generated_files P w = (Raise e, w1)
    /\ log w1 = log w ++ sweep_calls P temp_files files.
Proof.
  intros Hres w <-. rewrite cleanup_generated_files_effect, Hres. eauto.
Qed.

Lemma executes_cons_effect name (f : M bool) rest files0 b files1 calls1
    outcomes files2 calls2 :
  (forall w, fs w = files0 ->
     exists w1, f w = (Ok b, w1) /\ fs w1 = files1 /\ log w1 = log w ++ calls1) ->
  (forall w, fs w = files1 ->
     exists w2, executes rest w outcomes w2
                /\ fs w2 = files2 /\ log w2 = log w ++ calls2) ->
  forall w, fs w = files0 ->
    exists w2, executes ((name, f) :: rest) w ((name, b) :: outcomes) w2
               /\ fs w2 = files2 /\ log w2 = log w ++ calls1 ++ calls2.
Proof.
  intros Hf Hrest w Hw.
  destruct (Hf (announce name w) Hw) as (w1 & Hcall & Hfs1 & Hlog1).
  destruct (Hrest (conclude name b w1) Hfs1) as (w2 & Hrun & Hfs2 & Hlog2).
  exists w2. split; [econstructor; eassumption |]. split; [exact Hfs2 |].
  rewrite Hlog2. cbn [log conclude]. rewrite Hlog1. cbn [log announce].
  rewrite app_assoc. reflexivity.
Qed.

(** The same for a loop that a later step, or this one, cuts short; only
    the system calls are followed. *)
Lemma loop_cons_then_raise name (f : M bool) rest files0 b files1 calls1 e calls2 :
  (forall w, fs w = files0 ->
     exists w1, f w = (Ok b, w1) /\ fs w1 = files1 /\ log w1 = log w ++ calls1) ->
  (forall failed_steps w, fs w = files1 ->
     exists w2, for_in rest run_step failed_steps w = (Raise e, w2)
                /\ log w2 = log w ++ calls2) ->
  forall failed_steps w, fs w = files0 ->
    exists w2, for_in ((name, f) :: rest) run_step failed_steps w = (Raise e, w2)
               /\ log w2 = log w ++ calls1 ++ calls2.
Proof.
  intros Hf Hrest failed_steps w Hw.
  destruct (Hf (announce name w) Hw) as (w1 & Hcall & Hfs1 & Hlog1).
  destruct (Hrest (failed_steps ++ failed_names [(name, b)]) (conclude name b w1) Hfs1)
    as (w2 & Hloop & Hlog2).
  exists w2. split.
  - cbn [for_in]. erewrite bind_ok by (apply run_step_eq; exact Hcall). exact Hloop.
  - rewrite Hlog2. cbn [log conclude]. rewrite Hlog1. cbn [log announce].
    rewrite app_assoc. reflexivity.
Qed.

Lemma loop_cons_raise name (f : M bool) rest files0 e calls1 :
  (forall w, fs w = files0 ->
     exists w1, f w = (Raise e, w1) /\ log w1 = log w ++ calls1) ->
  forall failed_steps w, fs w = files0 ->
    exists w2, for_in ((name, f) :: rest) run_step failed_steps w = (Raise e, w2)
               /\ log w2 = log w ++ calls1.
Proof.
  intros Hf failed_steps w Hw.
  destruct (Hf (announce name w) Hw) as (w1 & Hcall & Hlog1).
  exists w1. split; [| exact Hlog1].
  cbn [for_in]. apply bind_raise, run_step_raise. exact Hcall.
Qed.

Lemma run_completes_parts version files :
  run_completes P version files = true
  <-> readable P build_cmd files = true
      /\ sweep_readable P temp_files
           (version_files P version (snd (shell P build_cmd files))) = true.
Proof. unfold run_completes. apply andb_true_iff. Qed.

(** The six steps, executed from any world in which no command garbles
    its output: what each returns, the files and the log of system calls
    at the end. *)
Lemma steps_execute version w :
  run_completes P version (fs w) = true ->
  exists w1,
    executes (steps P version) w (run_outcomes P version (fs w)) w1
    /\ fs w1 = run_files P version (fs w)
    /\ log w1 = log w ++ run_calls P version (fs w).
Proof.
  intros Hcompletes. apply run_completes_parts in Hcompletes as [Hbuild Hsweep].
  unfold steps, run_outcomes, run_files, run_calls. cbv zeta.
  remember (fs w) as files eqn:Hw. symmetry in Hw.
  rewrite <- (app_nil_r (map (fun pattern => EvRun (find_cmd pattern)) temp_files)).
  revert w Hw.
  eapply executes_cons_effect; [apply validate_structure_effect |].
  eapply executes_cons_effect; [apply embed_assets_effect, Hbuild |].
  eapply executes_cons_effect; [apply validate_generated_assets_effect |].
  eapply executes_cons_effect; [apply update_version_effect |].
  eapply executes_cons_effect; [apply create_release_notes_effect |].
  eapply executes_cons_effect; [apply cleanup_generated_files_sweeps, Hsweep |].
  intros w Hw. exists w. split; [constructor |]. split; [exact Hw |].
  rewrite app_nil_r. reflexivity.
Qed.

(** The loop of [main] from any world: it returns when no command
    garbles its output and raises a [ValueError] otherwise, and its
    system calls are those of [run_log] in both cases. *)
Lemma steps_log version w :
  exists r w1,
    for_in (steps P version) run_step [] w = (r, w1)
    /\ log w1 = log w ++ run_log P version (fs w)
    /\ (run_completes P version (fs w) = true ->
        r = Ok (failed_names (run_outcomes P version (fs w)))
        /\ fs w1 = run_files P version (fs w))
    /\ (run_completes P version (fs w) = false -> exists msg, r = Raise (ValueError msg)).
Proof.
  destruct (run_completes P version (fs w)) eqn:Hcompletes.
  - destruct (steps_execute version w Hcompletes) as (w1 & Hrun & Hfs & Hlog).
    apply run_completes_parts in Hcompletes as [Hbuild Hsweep].
    exists (Ok (failed_names (run_outcomes P version (fs w)))), w1.
    split; [apply (for_in_run_step _ _ _ _ Hrun) |].
    split; [| split; [auto | discriminate]].
    rewrite Hlog. unfold run_log, run_calls. cbv zeta. rewrite Hbuild.
    rewrite (proj2 (sweep_readable_calls _ _ Hsweep)). reflexivity.
  - unfold run_completes, readable, sweep_readable in Hcompletes.
    unfold run_log, readable. cbv zeta.
    destruct (command_result P build_cmd (fs w)) as [r | e] eqn:Hbuild.
    + cbn [andb] in Hcompletes.
      destruct (sweep_result P temp_files
                  (version_files P version (snd (shell P build_cmd (fs w)))))
        as [[] | e] eqn:Hsweep; [discriminate |].
      assert (Hread : readable P build_cmd (fs w) = true)
        by (unfold readable; rewrite Hbuild; reflexivity).
      assert (Hloop : forall failed_steps w0, fs w0 = fs w ->
                exists w2, for_in (steps P version) run_step failed_steps w0 = (Raise e, w2)
                  /\ log w2 = log w0 ++ map EvExists required_files
                               ++ [EvRun build_cmd]
                               ++ assets_calls (snd (shell P build_cmd (fs w)))
                               ++ version_calls P version (snd (shell P build_cmd (fs w)))
                               ++ [EvExists "RELEASE_NOTES.md"]
                               ++ sweep_calls P temp_files
                                    (version_files P version
                                       (snd (shell P build_cmd (fs w))))).
      { unfold steps.
        eapply loop_cons_then_raise; [apply validate_structure_effect |].
        eapply loop_cons_then_raise; [apply embed_assets_effect, Hread |].
        eapply loop_cons_then_raise; [apply validate_generated_assets_effect |].
        eapply loop_cons_then_raise; [apply update_version_effect |].
        eapply loop_cons_then_raise; [apply create_release_notes_effect |].
        eapply loop_cons_raise. apply cleanup_generated_files_raises, Hsweep. }
      destruct (Hloop [] w eq_refl) as (w2 & Hfor & Hlog).
      exists (Raise e), w2. split; [exact Hfor |]. split; [exact Hlog |].
      split; [discriminate |]. intros _.
      destruct (sweep_result_raises _ _ _ Hsweep) as (msg & ->). eauto.
    + assert (Hloop : forall failed_steps w0, fs w0 = fs w ->
                exists w2, for_in (steps P version) run_step failed_steps w0 = (Raise e, w2)
                  /\ log w2 = log w0 ++ map EvExists required_files ++ [EvRun build_cmd]).
      { unfold steps.
        eapply loop_cons_then_raise; [apply validate_structure_effect |].
        eapply loop_cons_raise. apply embed_assets_raises, Hbuild. }
      destruct (Hloop [] w eq_refl) as (w2 & Hfor & Hlog).
      exists (Raise e), w2. split; [exact Hfor |].
      split; [rewrite Hlog, app_nil_r; reflexivity |].
      split; [discriminate |]. intros _.
      destruct (command_result_raises P _ _ _ Hbuild) as (msg & ->). eauto.
Qed.

(** A whole run: its exit status, its system calls and, when no command
    garbles its output, the files it leaves. *)
Lemma run_script_effect argv w :
  fst (run_script P argv w)
  = (if run_completes P (parse_version argv) (fs w) then
       if nonempty (failed_names (run_outcomes P (parse_version argv) (fs w)))
       then 1%Z else 0%Z
     else 1%Z)
  /\ log (snd (run_script P argv w)) = log w ++ run_log P (parse_version argv) (fs w)
  /\ (run_completes P (parse_version argv) (fs w) = true ->
      fs (snd (run_script P argv w)) = run_files P (parse_version argv) (fs w)).
Proof.
  destruct (steps_log (parse_version argv) (banner w))
    as (r & w1 & Hloop & Hlog & Hdone & Hcut).
  cbn [banner fs log] in Hlog, Hdone, Hcut.
  unfold run_script. rewrite main_unfold, Hloop.
  destruct (run_completes P (parse_version argv) (fs w)).
  - destruct (Hdone eq_refl) as [-> Hfs].
    cbn [fst snd fs log].
    split; [destruct (nonempty (failed_names _)); reflexivity |]. auto.
  - destruct (Hcut eq_refl) as (msg & ->). cbn [fst snd exit_status].
    split; [reflexivity |]. split; [exact Hlog | discriminate].
Qed.

Lemma version_ok_true version files :
  version_ok P version files = true
  <-> Py.truthy_opt version = false
      \/ exists text members,
           files !! "library.json" = Some (File text)
           /\ json_load P text = Decoded (JObj members).
Proof.
  unfold version_ok, version_failure.
  destruct (Py.truthy_opt version); [| split; auto].
  destruct (files !! "library.json") as [[text | size] |].
  - destruct (json_load P text) as [doc | msg] eqn:Hload.
    + destruct doc; cbn [setitem_error];
        (split; [try discriminate; intros _; right; eauto
                | intros [H | (t & m & [= <-] & H)]; congruence]).
    + split; [discriminate | intros [H | (t & m & [= <-] & H)]; congruence].
  - split; [discriminate | intros [H | (t & m & H & _)]; discriminate].
  - split; [discriminate | intros [H | (t & m & H & _)]; discriminate].
Qed.

Lemma updated_manifest_other version files path :
  path <> "library.json" ->
  updated_manifest P version files !! path = files !! path.
Proof.
  intros Hp. unfold updated_manifest.
  destruct (files !! "library.json") as [[text | size] |]; try reflexivity.
  destruct (json_load P text) as [[] | msg]; try reflexivity.
  apply lookup_insert_ne. congruence.
Qed.

Lemma updated_manifest_present version files path :
  is_Some (updated_manifest P version files !! path) <-> is_Some (files !! path).
Proof.
  unfold updated_manifest.
  destruct (files !! "library.json") as [[text | size] |] eqn:Hfile; try reflexivity.
  destruct (json_load P text) as [[] | msg]; try reflexivity.
  rewrite lookup_insert_is_Some.
  split; [intros [<- | [_ H]]; [rewrite Hfile; eauto | exact H] |].
  intros H. destruct (decide ("library.json" = path)); auto.
Qed.

Lemma version_files_present version files path :
  present (version_files P version files) path = present files path.
Proof.
  unfold version_files. destruct (Py.truthy_opt version); [| reflexivity].
  unfold present. apply bool_decide_ext, updated_manifest_present.
Qed.

End Effects.

(** ** The orchestrator *)

Section Orchestrator.

Context (P : platform).



End Orchestrator.

(** ** The scenarios, run *)

Module Runs.

Import Scenario.

Example strip_trims_both_ends :
  Py.strip ("  boom" +:+ Py.nl) = "boom" /\ Py.strip "" = "" /\ Py.strip " a b " = "a b".
Proof. repeat split; reflexivity. Qed.

Example all_nominal_exits_zero :
  fst (run_script working ["prepare_release.py"] (fresh checkout)) = 0%Z.
Proof. vm_compute. reflexivity. Qed.

Example missing_source_exits_one :
  let w' := snd (run_script working ["prepare_release.py"]
                            (fresh (delete "src/Flexifi.cpp" checkout))) in
  fst (run_script working ["prepare_release.py"]
                  (fresh (delete "src/Flexifi.cpp" checkout))) = 1%Z
  /\ drop (length (out w') - 3) (out w')
     = ["❌ Release preparation failed!"; "Failed steps:";
        "   - Validating package structure"].
Proof. vm_compute. split; reflexivity. Qed.

Example declarations_of_999_bytes_fail :
  fst (validate_generated_assets
         (fresh (<[header_file := File (Py.str_mul "h" 999)]>
                   (<[impl_file := File (Py.str_mul "c" 500)]> checkout))))
  = Ok false.
Proof. vm_compute. reflexivity. Qed.

Example declarations_of_1000_bytes_pass :
  validate_generated_assets
    (fresh (<[header_file := File (Py.str_mul "h" 1000)]>
              (<[impl_file := File (Py.str_mul "c" 500)]> checkout)))
  = (Ok true,
     World (<[header_file := File (Py.str_mul "h" 1000)]>
              (<[impl_file := File (Py.str_mul "c" 500)]> checkout))
           ["🔍 Validating generated assets...";
            "✅ Generated assets validated (1500 bytes total)"]
           [EvExists header_file; EvExists impl_file;
            EvStat header_file; EvStat impl_file]).
Proof. vm_compute. reflexivity. Qed.

(** The round trip of the manifest [{version: 1.0.0, other: x}] with the
    version [1.2.0]. *)
Lemma update_version_round_trip :
  ("1.2.0" <> ""
   /\ fs (fresh checkout) !! "library.json" = Some (File (render_manifest "1.0.0" "x"))
   /\ json_load working (render_manifest "1.0.0" "x") = Decoded (JObj manifest_doc))
  /\ update_version working (Some "1.2.0") (fresh checkout)
     = (Ok true,
        World (<["library.json" := File (render_manifest "1.2.0" "x")]> checkout)
              ["📝 Updating version to 1.2.0..."; "✅ Version updated to 1.2.0"]
              [EvOpenRead "library.json"; EvOpenWrite "library.json";
               EvWrite "library.json"])
  /\ <["version" := JStr "1.2.0"]> manifest_doc
     = <["version" := JStr "1.2.0"]> (<["other" := JStr "x"]> ∅).
Proof.
  assert (Hv : "1.2.0" <> "") by discriminate.
  assert (Hf : fs (fresh checkout) !! "library.json"
               = Some (File (render_manifest "1.0.0" "x"))) by reflexivity.
  assert (Hj : json_load working (render_manifest "1.0.0" "x")
               = Decoded (JObj manifest_doc)) by reflexivity.
  split; [auto |].
  split; [| reflexivity].
  exact (proj1 (update_version_sets_only_version working (fresh checkout)
                  (render_manifest "1.0.0" "x") "1.2.0" manifest_doc Hv Hf Hj)).
Defined.

(** An empty version string is supplied, and the manifest keeps its
    version [1.0.0]: nothing is written. *)
Lemma update_version_empty_string_writes_nothing :
  fs (fresh checkout) !! "library.json" = Some (File (render_manifest "1.0.0" "x"))
  /\ json_load working (render_manifest "1.0.0" "x") = Decoded (JObj manifest_doc)
  /\ parse_version ["prepare_release.py"; "--version"; ""] = Some ""
  /\ update_version working (Some "") (fresh checkout) = (Ok true, fresh checkout)
  /\ json_dump working (JObj (<["version" := JStr ""]> manifest_doc))
     = render_manifest "" "x"
  /\ render_manifest "1.0.0" "x" <> render_manifest "" "x".
Proof.
  repeat split; try reflexivity. intros H. vm_compute in H. discriminate H.
Qed.

Lemma update_version_falsy_is_noop_empty_string :
  Py.truthy_opt (Some "") = false
  /\ update_version working (Some "") (fresh checkout) = (Ok true, fresh checkout).
Proof.
  split; [reflexivity |].
  exact (proj1 (proj2 (update_version_falsy_is_noop working (Some "") (fresh checkout)
                         eq_refl))).
Defined.

Lemma version_only_from_flag_pair_other_flag :
  (forall prog version rest,
     ["prepare_release.py"; "--verbose"; "1.2.0"] <> prog :: "--version" :: version :: rest)
  /\ parse_version ["prepare_release.py"; "--verbose"; "1.2.0"] = None
  /\ run_script working ["prepare_release.py"; "--verbose"; "1.2.0"] (fresh checkout)
     = run_script working [] (fresh checkout).
Proof.
  assert (Hform : forall prog version rest,
             ["prepare_release.py"; "--verbose"; "1.2.0"]
             <> prog :: "--version" :: version :: rest).
  { intros prog version rest H. discriminate H. }
  split; [exact Hform |].
  pose proof (version_only_from_flag_pair working
                ["prepare_release.py"; "--verbose"; "1.2.0"] (fresh checkout) Hform)
    as (Hnone & Hrun & _).
  split; [exact Hnone | exact Hrun].
Defined.

(** The build command exits with status 1 and writes nothing to its
    standard error: the reason printed is the description of the failed
    command, not the captured text. *)
Lemma embed_assets_silent_failure_reason :
  let r := fst (shell silent_failure "python3 tools/embed_assets.py" checkout) in
  let w' := snd (embed_assets silent_failure (fresh checkout)) in
  cp_returncode r = 1%Z
  /\ cp_stderr r = ""
  /\ fst (embed_assets silent_failure (fresh checkout)) = Ok false
  /\ out w'
     = [ "🎨 Embedding web assets..."; "🔧 Embedding web assets";
         "   ❌ Command 'python3 tools/embed_assets.py' returned non-zero exit status 1." ]
  /\ last (out w') <> Some ("   ❌ " +:+ cp_stderr r)
  /\ last (out w') <> Some ("   ❌ " +:+ Py.strip (cp_stderr r)).
Proof.
  vm_compute. repeat split; try reflexivity; discriminate.
Qed.

(** The build command exits with status 0 after writing its files and a
    readable line: the trigger returns true and prints the line. *)
Lemma embed_assets_readable_build_run :
  decode_output working
    (fst (shell working "python3 tools/embed_assets.py" (fs (fresh checkout))))
  = Ok (Completed 0 ("Embedded 2 assets" +:+ Py.nl) "")
  /\ fst (embed_assets working (fresh checkout)) = Ok true
  /\ out (snd (embed_assets working (fresh checkout)))
     = [ "🎨 Embedding web assets..."; "🔧 Embedding web assets";
         "   ✅ Embedded 2 assets" ].
Proof.
  assert (Hdecode : decode_output working
                      (fst (shell working "python3 tools/embed_assets.py"
                                  (fs (fresh checkout))))
                    = Ok (Completed 0 ("Embedded 2 assets" +:+ Py.nl) ""))
    by reflexivity.
  split; [exact Hdecode |].
  rewrite (proj1 (embed_assets_true_iff_exit_zero working (fresh checkout) _ Hdecode)).
  split; reflexivity.
Defined.




End Runs.


(** ** Beyond the claims: properties of the steps and of a whole run *)

Section Beyond.

Context (P : platform).

(** X1. With a version to write and no [library.json], the updater returns
    false, prints the reason of the failed [open] and does not create the
    file: its only system call is the attempt to read. *)
Theorem update_version_missing_manifest (version : string) (w : world) :
  version <> "" ->
  fs w !! "library.json" = None ->
  update_version P (Some version) w
  = (Ok false,
     World (fs w)
           (out w ++ [ "📝 Updating version to " +:+ version +:+ "...";
                       "❌ Failed to update version: "
                         +:+ "[Errno 2] No such file or directory: 'library.json'" ])
           (log w ++ [EvOpenRead "library.json"])).
Proof.
  intros Hv Hfile. rewrite update_version_eq.
  unfold version_ok, version_files, version_lines, version_calls,
    version_failure, updated_manifest.
  cbn [Py.truthy_opt default]. rewrite (truthy_nonempty _ Hv), Hfile. reflexivity.
Qed.

(** X2. A manifest that does not parse makes the updater return false with
    the parser's message; the file is opened for reading only, so its
    bytes are what they were and it is not truncated. *)
Theorem update_version_malformed_manifest (version text msg : string) (w : world) :
  version <> "" ->
  fs w !! "library.json" = Some (File text) ->
  json_load P text = Malformed msg ->
  update_version P (Some version) w
  = (Ok false,
     World (fs w)
           (out w ++ [ "📝 Updating version to " +:+ version +:+ "...";
                       "❌ Failed to update version: " +:+ msg ])
           (log w ++ [EvOpenRead "library.json"])).
Proof.
  intros Hv Hfile Hload. rewrite update_version_eq.
  unfold version_ok, version_files, version_lines, version_calls,
    version_failure, updated_manifest.
  cbn [Py.truthy_opt default]. rewrite (truthy_nonempty _ Hv), Hfile, Hload. reflexivity.
Qed.

(** X3. A manifest that parses to anything but an object (an array, a
    string, a number, a boolean, null) makes the updater return false
    with the message of the failed item assignment, and again nothing is
    written; for an array the message is the one about list indices. *)
Theorem update_version_manifest_not_an_object
    (version text : string) (doc : json) (w : world) :
  version <> "" ->
  fs w !! "library.json" = Some (File text) ->
  json_load P text = Decoded doc ->
  (forall members, doc <> JObj members) ->
  exists reason,
    setitem_error doc = Some reason
    /\ update_version P (Some version) w
       = (Ok false,
          World (fs w)
                (out w ++ [ "📝 Updating version to " +:+ version +:+ "...";
                            "❌ Failed to update version: " +:+ reason ])
                (log w ++ [EvOpenRead "library.json"]))
    /\ (forall items, doc = JArr items ->
          reason = "list indices must be integers or slices, not str").
Proof.
  intros Hv Hfile Hload Hdoc.
  assert (Hreason : exists reason, setitem_error doc = Some reason).
  { destruct doc; cbn [setitem_error]; eauto. exfalso. eapply Hdoc. reflexivity. }
  destruct Hreason as (reason & Hreason). exists reason.
  split; [exact Hreason |]. split.
  - rewrite update_version_eq.
    unfold version_ok, version_files, version_lines, version_calls,
      version_failure, updated_manifest.
    cbn [Py.truthy_opt default].
    rewrite (truthy_nonempty _ Hv), Hfile, Hload, Hreason.
    destruct doc; try reflexivity. discriminate Hreason.
  - intros items ->. cbn [setitem_error] in Hreason. congruence.
Qed.

(** X4. Whatever the version and whatever the outcome, the updater leaves
    every path other than [library.json] with the node it had, and
    neither creates nor removes a path. *)
Theorem update_version_touches_only_manifest (version : option string) (w : world) :
  exists (ok : bool) (w' : world),
    update_version P version w = (Ok ok, w')
    /\ (forall path, path <> "library.json" -> fs w' !! path = fs w !! path)
    /\ (forall path, is_Some (fs w' !! path) <-> is_Some (fs w !! path)).
Proof.
  eexists _, _. split; [apply update_version_eq |]. cbn [fs].
  unfold version_files. destruct (Py.truthy_opt version).
  - split; [intros path; apply updated_manifest_other
           | intros path; apply updated_manifest_present].
  - split; [reflexivity | intros path; reflexivity].
Qed.

(** X5. Two updates in a row: when the codec reads back the manifest the
    first update wrote, the second succeeds too and the file ends as if
    only the second version had been written to the original manifest. *)
Theorem update_version_last_version_wins
    (w : world) (text v1 v2 : string) (members : gmap string json) :
  v1 <> "" -> v2 <> "" ->
  fs w !! "library.json" = Some (File text) ->
  json_load P text = Decoded (JObj members) ->
  json_load P (json_dump P (JObj (<["version" := JStr v1]> members)))
  = Decoded (JObj (<["version" := JStr v1]> members)) ->
  exists w1 w2,
    update_version P (Some v1) w = (Ok true, w1)
    /\ update_version P (Some v2) w1 = (Ok true, w2)
    /\ fs w2 = <["library.json" :=
                   File (json_dump P (JObj (<["version" := JStr v2]> members)))]> (fs w)
    /\ fs w2 = fs (snd (update_version P (Some v2) w)).
Proof.
  intros Hv1 Hv2 Hfile Hload Hback.
  assert (Hone : forall v, v <> "" ->
            version_ok P (Some v) (fs w) = true
            /\ version_files P (Some v) (fs w)
               = <["library.json" :=
                     File (json_dump P (JObj (<["version" := JStr v]> members)))]> (fs w)).
  { intros v Hv. unfold version_ok, version_files, version_failure, updated_manifest.
    cbn [Py.truthy_opt default]. rewrite (truthy_nonempty _ Hv), Hfile, Hload.
    split; reflexivity. }
  destruct (Hone v1 Hv1) as [Hok1 Hfiles1]. destruct (Hone v2 Hv2) as [Hok2 Hfiles2].
  eexists _, _. split; [rewrite update_version_eq, Hok1; reflexivity |].
  rewrite !update_version_eq. cbn [fs snd]. rewrite Hfiles1, Hfiles2.
  unfold version_ok, version_files, version_failure, updated_manifest.
  cbn [Py.truthy_opt default]. rewrite (truthy_nonempty _ Hv2).
  rewrite lookup_insert_eq, Hback. cbn [setitem_error].
  rewrite !insert_insert_eq. repeat split; reflexivity.
Qed.

(** X6. The structural validator is idempotent: run again on the world it
    left, it returns the same result, prints the same lines once more and
    the files are still those it started from. *)
Theorem validate_structure_idempotent (w : world) :
  exists (ok : bool) (w1 w2 : world) (lines : list string),
    validate_structure w = (Ok ok, w1)
    /\ validate_structure w1 = (Ok ok, w2)
    /\ out w1 = out w ++ lines
    /\ out w2 = out w1 ++ lines
    /\ fs w2 = fs w.
Proof.
  eexists _, _, _, _. split; [apply validate_structure_eq |].
  split; [rewrite validate_structure_eq; cbn [fs]; reflexivity |].
  cbn [fs out]. repeat split; reflexivity.
Qed.

(** X7. When the declarations file is missing the asset validator stops
    at once: it reports that file alone and never looks at the
    implementation file, present or not. *)
Theorem validate_generated_assets_stops_at_missing_header (w : world) :
  fs w !! header_file = None ->
  validate_generated_assets w
  = (Ok false,
     World (fs w)
           (out w ++ ["🔍 Validating generated assets..."; "❌ Missing web_assets.h"])
           (log w ++ [EvExists header_file])).
Proof.
  intros Hh. rewrite validate_generated_assets_eq.
  unfold assets_verdict, assets_calls. rewrite Hh. reflexivity.
Qed.

(** X8. Existence is tested before any size: with the declarations file
    present, however small, and the implementation file missing, the
    report is the missing implementation file and no size is read. *)
Theorem validate_generated_assets_missing_impl_before_sizes (w : world) (h : node) :
  fs w !! header_file = Some h ->
  fs w !! impl_file = None ->
  validate_generated_assets w
  = (Ok false,
     World (fs w)
           (out w ++ ["🔍 Validating generated assets..."; "❌ Missing web_assets.cpp"])
           (log w ++ [EvExists header_file; EvExists impl_file])).
Proof.
  intros Hh Hi. rewrite validate_generated_assets_eq.
  unfold assets_verdict, assets_calls. rewrite Hh, Hi. reflexivity.
Qed.

(** X9. A declarations file under 1000 bytes is the one reported, with
    its size, whatever the size of the implementation file: when both
    are too small only the first is named. *)
Theorem validate_generated_assets_reports_header_first (w : world) (h i : node) :
  fs w !! header_file = Some h ->
  fs w !! impl_file = Some i ->
  st_size h < 1000 ->
  validate_generated_assets w
  = (Ok false,
     World (fs w)
           (out w ++ [ "🔍 Validating generated assets...";
                       "❌ web_assets.h too small ("
                         +:+ Py.str_of_nat (st_size h) +:+ " bytes)" ])
           (log w ++ [EvExists header_file; EvExists impl_file;
                      EvStat header_file; EvStat impl_file])).
Proof.
  intros Hh Hi Hsmall. rewrite validate_generated_assets_eq.
  unfold assets_verdict, assets_calls. rewrite Hh, Hi.
  apply Nat.ltb_lt in Hsmall. rewrite Hsmall. reflexivity.
Qed.

(** X10. The asset validator never reads content: in any world its
    system calls are existence tests and size queries only and it
    leaves the files as they were; and two worlds in which the two
    generated paths have the same sizes (or are the same ones missing)
    get the same result and the same report line. *)
Theorem validate_generated_assets_sees_sizes_only (w1 w2 : world) :
  st_size <$> (fs w1 !! header_file) = st_size <$> (fs w2 !! header_file) ->
  st_size <$> (fs w1 !! impl_file) = st_size <$> (fs w2 !! impl_file) ->
  fst (validate_generated_assets w1) = fst (validate_generated_assets w2)
  /\ last (out (snd (validate_generated_assets w1)))
     = last (out (snd (validate_generated_assets w2)))
  /\ (forall w, w = w1 \/ w = w2 ->
        fs (snd (validate_generated_assets w)) = fs w
        /\ exists calls,
             log (snd (validate_generated_assets w)) = log w ++ calls
             /\ forall e, In e calls -> exists path, e = EvExists path \/ e = EvStat path).
Proof.
  intros Hh Hi.
  assert (Hsame : assets_verdict (fs w1) = assets_verdict (fs w2)).
  { unfold assets_verdict.
    destruct (fs w1 !! header_file) as [h1|], (fs w2 !! header_file) as [h2|];
      try discriminate Hh; [| reflexivity].
    destruct (fs w1 !! impl_file) as [i1|], (fs w2 !! impl_file) as [i2|];
      try discriminate Hi; [| reflexivity].
    cbn in Hh, Hi. injection Hh as ->. injection Hi as ->. reflexivity. }
  split; [rewrite !validate_generated_assets_eq; cbn [fst]; rewrite Hsame; reflexivity |].
  split.
  - rewrite !validate_generated_assets_eq. cbn [snd out]. rewrite Hsame, !last_app.
    reflexivity.
  - intros w _. rewrite validate_generated_assets_eq. cbn [snd fs log].
    split; [reflexivity |]. eexists. split; [reflexivity |].
    intros e. unfold assets_calls.
    destruct (fs w !! header_file), (fs w !! impl_file); cbn [In];
      intuition (subst; eauto).
Qed.

(** X11. [run_command], for any command and description.  It prints the
    description, or the command itself when the description is empty.
    A command holding a null character then raises [ValueError] and no
    process is started.  Any other command is run once, and the files
    are what it left; if its output cannot be decoded the decoding error
    is raised and nothing more is printed; if it can, the result is true
    exactly on exit status zero and at most one more line is printed,
    none exactly when the command succeeded without output. *)
Theorem run_command_reports_once (cmd description : string) (w : world) :
  let heading := "🔧 " +:+ (if Py.truthy description then description else cmd) in
  (has_nul cmd = true ->
   run_command P cmd description w
   = (Raise (ValueError "embedded null byte"),
      World (fs w) (out w ++ [heading]) (log w)))
  /\ (has_nul cmd = false ->
      forall e, decode_output P (fst (shell P cmd (fs w))) = Raise e ->
      run_command P cmd description w
      = (Raise e,
         World (snd (shell P cmd (fs w))) (out w ++ [heading]) (log w ++ [EvRun cmd])))
  /\ (has_nul cmd = false ->
      forall r, decode_output P (fst (shell P cmd (fs w))) = Ok r ->
      exists report,
        run_command P cmd description w
        = (Ok (cp_returncode r =? 0)%Z,
           World (snd (shell P cmd (fs w))) (out w ++ heading :: report)
                 (log w ++ [EvRun cmd]))
        /\ length report <= 1
        /\ (report = [] <-> cp_returncode r = 0%Z /\ cp_stdout r = "")
        /\ ((cp_returncode r =? 0)%Z = true <-> cp_returncode r = 0%Z)
        /\ cp_returncode r = cp_returncode (fst (shell P cmd (fs w)))).
Proof.
  intros heading. split; [| split].
  - intros Hnul. rewrite run_command_eq.
    unfold command_result, ran_files, ran_calls. rewrite Hnul, app_nil_r.
    destruct w; reflexivity.
  - intros Hnul e Hdecode. rewrite run_command_eq.
    unfold command_result, ran_files, ran_calls. rewrite Hnul, Hdecode. reflexivity.
  - intros Hnul r Hdecode. exists (command_report P cmd r).
    assert (Hres : command_result P cmd (fs w) = Ok r)
      by (unfold command_result; rewrite Hnul; exact Hdecode).
    split.
    { rewrite run_command_eq, Hres. unfold ran_files, ran_calls. rewrite Hnul.
      reflexivity. }
    split; [| split; [| split]].
    + unfold command_report.
      destruct (cp_returncode r =? 0)%Z; [destruct (Py.truthy (cp_stdout r)) |];
        cbn [length]; lia.
    + unfold command_report.
      destruct (Z.eqb_spec (cp_returncode r) 0) as [Hrc | Hrc].
      * destruct (cp_stdout r) as [| c s0]; cbn [Py.truthy].
        -- split; auto.
        -- split; [discriminate | intros [_ H]; discriminate H].
      * split; [discriminate | intros [H _]; contradiction].
    + apply Z.eqb_eq.
    + apply (command_result_returncode P _ _ _ Hres).
Qed.

Lemma sweep_readable_files patterns files :
  sweep_readable P patterns files = true ->
  sweep_files P patterns files
  = fold_left (fun left pattern => snd (shell P (find_cmd pattern) left)) patterns files.
Proof.
  unfold sweep_readable. revert files.
  induction patterns as [| pattern rest IH]; intros files;
    cbn [sweep_result sweep_files fold_left]; [reflexivity |].
  destruct (command_result P (find_cmd pattern) files) as [r | e] eqn:Hres;
    [| discriminate].
  intros Hrest. rewrite (IH _ Hrest).
  destruct (command_result_returncode P _ _ _ Hres) as (Hnul & _ & _).
  unfold ran_files. rewrite Hnul. reflexivity.
Qed.

(** X12. Whenever the output of its commands can be decoded, the
    housekeeping step returns true whatever their exit statuses.  It
    runs the three [find] commands in the order of its pattern list,
    each on the files the previous one left. *)
Theorem cleanup_generated_files_always_succeeds (w : world) :
  sweep_readable P temp_files (fs w) = true ->
  exists lines,
    cleanup_generated_files P w
    = (Ok true,
       World (snd (shell P "find . -name '.DS_Store' -delete"
                (snd (shell P "find . -name '*.pyc' -delete"
                   (snd (shell P "find . -name '__pycache__' -delete" (fs w)))))))
             (out w ++ "🧹 Cleaning up temporary files..." :: lines)
             (log w ++ [ EvRun "find . -name '__pycache__' -delete";
                         EvRun "find . -name '*.pyc' -delete";
                         EvRun "find . -name '.DS_Store' -delete" ]))
    /\ In "🔧 Removing __pycache__" lines
    /\ In "🔧 Removing *.pyc" lines
    /\ In "🔧 Removing .DS_Store" lines.
Proof.
  intros Hread. exists (sweep_lines P temp_files (fs w)).
  destruct (sweep_readable_calls P _ _ Hread) as [Hres Hcalls].
  split.
  { rewrite cleanup_generated_files_effect, Hres, Hcalls,
      (sweep_readable_files _ _ Hread).
    reflexivity. }
  unfold sweep_readable in Hread. unfold temp_files in *.
  cbn [sweep_result sweep_lines] in *.
  destruct (command_result P (find_cmd "__pycache__") (fs w)); [| discriminate Hread].
  destruct (command_result P (find_cmd "*.pyc") _); [| discriminate Hread].
  repeat split.
  - left. reflexivity.
  - right. apply in_or_app. right. left. reflexivity.
  - right. apply in_or_app. right. right. apply in_or_app. right. left. reflexivity.
Qed.


Lemma run_outcomes_all_true version files :
  nonempty (failed_names (run_outcomes P version files)) = false
  <-> negb (nonempty (missing files required_files)) = true
      /\ (cp_returncode (fst (shell P build_cmd files)) =? 0)%Z = true
      /\ fst (assets_verdict (snd (shell P build_cmd files))) = true
      /\ version_ok P version (snd (shell P build_cmd files)) = true
      /\ present (snd (shell P build_cmd files)) "RELEASE_NOTES.md" = true.
Proof.
  rewrite <- (version_files_present P version (snd (shell P build_cmd files))).
  unfold run_outcomes, failed_names. cbv zeta. cbn [List.filter snd].
  destruct (negb (nonempty (missing files required_files)));
    destruct (cp_returncode (fst (shell P build_cmd files)) =? 0)%Z;
    destruct (fst (assets_verdict (snd (shell P build_cmd files))));
    destruct (version_ok P version (snd (shell P build_cmd files)));
    destruct (present (version_files P version (snd (shell P build_cmd files)))
                      "RELEASE_NOTES.md");
    cbn; intuition congruence.
Qed.

(** X15. The exit status as a function of what the run finds.  It is 0
    exactly when every required path exists at the start, the output of
    the build command can be decoded and its exit status is zero, the
    files it leaves contain both generated files at their minimum sizes
    and the release notes, either no (non-empty) version was given or
    the manifest the build left is a regular file holding a JSON object,
    and the output of the three [find] commands can be decoded.  The
    assets, the manifest and the notes are those the build command left,
    not those the run started with. *)
Theorem run_script_exit_zero_iff (argv : list string) (w : world) :
  let built := snd (shell P build_cmd (fs w)) in
  fst (run_script P argv w) = 0%Z
  <-> (forall p, In p required_files -> is_Some (fs w !! p))
      /\ (exists r, decode_output P (fst (shell P build_cmd (fs w))) = Ok r)
      /\ cp_returncode (fst (shell P build_cmd (fs w))) = 0%Z
      /\ (exists h i,
            built !! header_file = Some h /\ built !! impl_file = Some i
            /\ 1000 <= st_size h /\ 500 <= st_size i)
      /\ (Py.truthy_opt (parse_version argv) = false
          \/ exists text members,
               built !! "library.json" = Some (File text)
               /\ json_load P text = Decoded (JObj members))
      /\ is_Some (built !! "RELEASE_NOTES.md")
      /\ sweep_readable P temp_files (version_files P (parse_version argv) built) = true.
Proof.
  intros built. destruct (run_script_effect P argv w) as (Hstatus & _ & _).
  rewrite Hstatus.
  assert (Hbuild : readable P build_cmd (fs w) = true
                   <-> exists r, decode_output P (fst (shell P build_cmd (fs w))) = Ok r).
  { unfold readable, command_result. cbn [has_nul build_cmd].
    change (has_nul build_cmd) with false. cbv iota.
    destruct (decode_output P (fst (shell P build_cmd (fs w)))) as [r | e].
    - split; eauto.
    - split; [discriminate | intros (r & Hr); discriminate Hr]. }
  split.
  - intros Hzero.
    destruct (run_completes P (parse_version argv) (fs w)) eqn:Hc; [| discriminate Hzero].
    apply run_completes_parts in Hc as [Hread Hsweep].
    assert (Hnone : nonempty (failed_names (run_outcomes P (parse_version argv) (fs w)))
                    = false)
      by (destruct (nonempty (failed_names _)); [discriminate Hzero | reflexivity]).
    apply run_outcomes_all_true in Hnone as (H1 & H2 & H3 & H4 & H5).
    split; [apply missing_nil, nonempty_false, negb_true_iff, H1 |].
    split; [apply Hbuild, Hread |].
    split; [apply Z.eqb_eq, H2 |].
    split; [apply assets_verdict_true, H3 |].
    split; [apply (version_ok_true P), H4 |].
    split; [apply present_true, H5 | exact Hsweep].
  - intros (H1 & Hread & H2 & H3 & H4 & H5 & Hsweep).
    assert (Hc : run_completes P (parse_version argv) (fs w) = true)
      by (apply run_completes_parts; split; [apply Hbuild, Hread | exact Hsweep]).
    assert (Hnone : nonempty (failed_names (run_outcomes P (parse_version argv) (fs w)))
                    = false).
    { apply run_outcomes_all_true.
      split; [apply negb_true_iff, nonempty_false, missing_nil, H1 |].
      split; [apply Z.eqb_eq, H2 |].
      split; [apply assets_verdict_true, H3 |].
      split; [apply (version_ok_true P), H4 |].
      apply present_true, H5. }
    rewrite Hc, Hnone. reflexivity.
Qed.


Lemma sweep_calls_run patterns files e :
  In e (sweep_calls P patterns files) -> exists cmd, e = EvRun cmd.
Proof.
  revert files. induction patterns as [| pattern rest IH]; intros files;
    cbn [sweep_calls]; [intros [] |].
  intros Hin. apply in_app_or in Hin as [Hin | Hin].
  - unfold ran_calls in Hin. destruct (has_nul (find_cmd pattern)); [destruct Hin |].
    destruct Hin as [<- | []]. eauto.
  - destruct (command_result P (find_cmd pattern) files); [| destruct Hin].
    eapply IH, Hin.
Qed.

(** X17. The script itself writes to one file only.  Every system call of
    a run that opens a file for writing or writes to it is on
    [library.json], and there is one only when a non-empty version was
    given and the manifest could be read as an object. *)
Theorem run_script_writes_only_manifest (argv : list string) (w : world) :
  exists calls,
    log (snd (run_script P argv w)) = log w ++ calls
    /\ forall e path,
         In e calls -> writes_to e = Some path ->
         path = "library.json"
         /\ Py.truthy_opt (parse_version argv) = true
         /\ version_ok P (parse_version argv) (snd (shell P build_cmd (fs w))) = true.
Proof.
  destruct (run_script_effect P argv w) as (_ & Hlog & _).
  eexists. split; [exact Hlog |].
  intros e path Hin Hwrite. unfold run_log in Hin. cbv zeta in Hin.
  apply in_app_or in Hin as [Hin | Hin].
  { apply in_map_iff in Hin as (q & <- & _). discriminate Hwrite. }
  apply in_app_or in Hin as [Hin | Hin].
  { destruct Hin as [<- | []]. discriminate Hwrite. }
  destruct (readable P build_cmd (fs w)); [| destruct Hin].
  apply in_app_or in Hin as [Hin | Hin].
  { unfold assets_calls in Hin.
    destruct (snd (shell P build_cmd (fs w)) !! header_file),
             (snd (shell P build_cmd (fs w)) !! impl_file);
      cbn [In] in Hin; intuition (subst; discriminate). }
  apply in_app_or in Hin as [Hin | Hin].
  { unfold version_calls, version_ok in *.
    destruct (Py.truthy_opt (parse_version argv)); [| destruct Hin].
    destruct (version_failure P (snd (shell P build_cmd (fs w)))).
    - destruct Hin as [<- | []]. discriminate Hwrite.
    - cbn [In] in Hin. destruct Hin as [<- | [<- | [<- | []]]];
        cbn [writes_to] in Hwrite; try discriminate Hwrite;
        injection Hwrite as <-; auto. }
  apply in_app_or in Hin as [Hin | Hin].
  { destruct Hin as [<- | []]. discriminate Hwrite. }
  apply sweep_calls_run in Hin as (cmd & ->). discriminate Hwrite.
Qed.

(** X18. Without a version (none, or the empty string), and when the
    output of the external commands can be decoded, the files at the end
    of a run are exactly what the four external commands made of the
    files at the start, the build command first and the three [find]
    commands after it; the script opens no file at all. *)
Theorem run_script_without_version_only_runs_commands (argv : list string) (w : world) :
  Py.truthy_opt (parse_version argv) = false ->
  run_completes P (parse_version argv) (fs w) = true ->
  fs (snd (run_script P argv w))
  = snd (shell P "find . -name '.DS_Store' -delete"
      (snd (shell P "find . -name '*.pyc' -delete"
         (snd (shell P "find . -name '__pycache__' -delete"
            (snd (shell P "python3 tools/embed_assets.py" (fs w))))))))
  /\ exists calls,
       log (snd (run_script P argv w)) = log w ++ calls
       /\ forall e, In e calls ->
                    exists x, e = EvExists x \/ e = EvStat x \/ e = EvRun x.
Proof.
  intros Hfalsy Hc. destruct (run_script_effect P argv w) as (_ & Hlog & Hfs).
  split.
  - rewrite (Hfs Hc). apply run_completes_parts in Hc as [_ Hsweep].
    unfold run_files. rewrite (sweep_readable_files _ _ Hsweep).
    unfold version_files. rewrite Hfalsy. reflexivity.
  - eexists. split; [exact Hlog |].
    intros e Hin. unfold run_log in Hin. cbv zeta in Hin.
    unfold version_calls in Hin. rewrite Hfalsy in Hin.
    apply in_app_or in Hin as [Hin | Hin].
    { apply in_map_iff in Hin as (q & <- & _). eauto. }
    apply in_app_or in Hin as [Hin | Hin].
    { destruct Hin as [<- | []]. eauto. }
    destruct (readable P build_cmd (fs w)); [| destruct Hin].
    apply in_app_or in Hin as [Hin | Hin].
    { unfold assets_calls in Hin.
      destruct (snd (shell P build_cmd (fs w)) !! header_file),
               (snd (shell P build_cmd (fs w)) !! impl_file);
        cbn [In] in Hin; intuition (subst; eauto). }
    apply in_app_or in Hin as [Hin | Hin]; [destruct Hin |].
    apply in_app_or in Hin as [Hin | Hin].
    { destruct Hin as [<- | []]. eauto. }
    apply sweep_calls_run in Hin as (cmd & ->). eauto.
Qed.

(** X19. One missing required path is enough for status 1, whatever the
    rest of the run does, and the build command is run all the same;
    when moreover the output of the external commands can be decoded,
    the structural step is named among the failed steps that are
    printed. *)
Theorem run_script_missing_required_file (argv : list string) (w : world) (p : string) :
  In p required_files ->
  fs w !! p = None ->
  fst (run_script P argv w) = 1%Z
  /\ In (EvRun "python3 tools/embed_assets.py") (log (snd (run_script P argv w)))
  /\ (run_completes P (parse_version argv) (fs w) = true ->
      In "   - Validating package structure" (out (snd (run_script P argv w)))).
Proof.
  intros Hin Hnone.
  assert (Hmissing : nonempty (missing (fs w) required_files) = true).
  { destruct (nonempty (missing (fs w) required_files)) eqn:Hne; [reflexivity |].
    apply nonempty_false in Hne.
    destruct (proj1 (missing_nil _ _) Hne p Hin) as [n Hn]. congruence. }
  assert (Hfailed : In "Validating package structure"
                       (failed_names (run_outcomes P (parse_version argv) (fs w)))).
  { apply failed_names_In. unfold run_outcomes. cbv zeta.
    rewrite Hmissing. left. reflexivity. }
  destruct (run_script_effect P argv w) as (Hstatus & Hlog & _).
  split; [| split].
  - rewrite Hstatus. destruct (run_completes P (parse_version argv) (fs w));
      [| reflexivity].
    destruct (failed_names (run_outcomes P (parse_version argv) (fs w)));
      [destruct Hfailed | reflexivity].
  - rewrite Hlog. apply in_or_app. right. unfold run_log. cbv zeta.
    apply in_or_app. right. apply in_or_app. left. left. reflexivity.
  - intros Hc.
    destruct (steps_execute P (parse_version argv) (banner w) Hc) as (w1 & Hrun & _ & _).
    cbn [banner fs] in Hrun.
    rewrite (run_script_eq P _ _ _ _ Hrun). cbn [snd out].
    apply in_or_app. right. unfold summary. right.
    destruct (failed_names (run_outcomes P (parse_version argv) (fs w))) as [|n l] eqn:Hf;
      [destruct Hfailed |].
    cbn [nonempty]. right. right.
    apply in_map_iff. exists "Validating package structure". split; [reflexivity |].
    exact Hfailed.
Qed.

End Beyond.

(** ** The further properties, on concrete worlds *)

Module MoreRuns.

Import Scenario Fixtures.

Lemma update_version_missing_manifest_run :
  ("1.2.0" <> "" /\ fs (fresh (delete "library.json" checkout)) !! "library.json" = None)
  /\ fst (update_version working (Some "1.2.0") (fresh (delete "library.json" checkout)))
     = Ok false
  /\ fs (snd (update_version working (Some "1.2.0") (fresh (delete "library.json" checkout))))
       !! "library.json" = None.
Proof.
  assert (Hv : "1.2.0" <> "") by discriminate.
  assert (Hf : fs (fresh (delete "library.json" checkout)) !! "library.json" = None)
    by reflexivity.
  split; [auto |].
  rewrite (update_version_missing_manifest working "1.2.0" _ Hv Hf).
  split; [reflexivity | exact Hf].
Defined.

Lemma update_version_malformed_manifest_run :
  let w := fresh (<["library.json" := File "not json"]> checkout) in
  ("1.2.0" <> ""
   /\ fs w !! "library.json" = Some (File "not json")
   /\ json_load working "not json" = Malformed "Expecting value: line 1 column 1 (char 0)")
  /\ fst (update_version working (Some "1.2.0") w) = Ok false
  /\ fs (snd (update_version working (Some "1.2.0") w)) = fs w.
Proof.
  intros w.
  assert (Hv : "1.2.0" <> "") by discriminate.
  assert (Hf : fs w !! "library.json" = Some (File "not json")) by reflexivity.
  assert (Hl : json_load working "not json"
               = Malformed "Expecting value: line 1 column 1 (char 0)") by reflexivity.
  split; [auto |].
  rewrite (update_version_malformed_manifest working "1.2.0" "not json" _ w Hv Hf Hl).
  split; reflexivity.
Defined.

Lemma update_version_array_manifest_run :
  let w := fresh (<["library.json" := File "[]"]> checkout) in
  ("1.2.0" <> ""
   /\ fs w !! "library.json" = Some (File "[]")
   /\ json_load rereading "[]" = Decoded (JArr [])
   /\ (forall members, JArr [] <> JObj members))
  /\ exists reason,
       reason = "list indices must be integers or slices, not str"
       /\ update_version rereading (Some "1.2.0") w
          = (Ok false,
             World (fs w)
                   [ "📝 Updating version to 1.2.0...";
                     "❌ Failed to update version: " +:+ reason ]
                   [EvOpenRead "library.json"]).
Proof.
  intros w.
  assert (Hv : "1.2.0" <> "") by discriminate.
  assert (Hf : fs w !! "library.json" = Some (File "[]")) by reflexivity.
  assert (Hl : json_load rereading "[]" = Decoded (JArr [])) by reflexivity.
  assert (Hd : forall members, JArr [] <> JObj members) by (intros members; discriminate).
  split; [auto |].
  destruct (update_version_manifest_not_an_object rereading "1.2.0" "[]" (JArr []) w
              Hv Hf Hl Hd) as (reason & _ & Hrun & Hlist).
  exists reason. split; [apply (Hlist []); reflexivity | exact Hrun].
Defined.

Lemma update_version_twice_run :
  let updated := <["version" := JStr "1.2.0"]> manifest_doc in
  ("1.2.0" <> "" /\ "2.0.0" <> ""
   /\ fs (fresh checkout) !! "library.json" = Some (File (render_manifest "1.0.0" "x"))
   /\ json_load rereading (render_manifest "1.0.0" "x") = Decoded (JObj manifest_doc)
   /\ json_load rereading (json_dump rereading (JObj updated)) = Decoded (JObj updated))
  /\ exists w1 w2,
       update_version rereading (Some "1.2.0") (fresh checkout) = (Ok true, w1)
       /\ update_version rereading (Some "2.0.0") w1 = (Ok true, w2)
       /\ fs w2 !! "library.json" = Some (File (render_manifest "2.0.0" "x")).
Proof.
  intros updated.
  assert (Hv1 : "1.2.0" <> "") by discriminate.
  assert (Hv2 : "2.0.0" <> "") by discriminate.
  assert (Hf : fs (fresh checkout) !! "library.json"
               = Some (File (render_manifest "1.0.0" "x"))) by reflexivity.
  assert (Hl : json_load rereading (render_manifest "1.0.0" "x")
               = Decoded (JObj manifest_doc)) by reflexivity.
  assert (Hb : json_load rereading (json_dump rereading (JObj updated))
               = Decoded (JObj updated)) by reflexivity.
  split; [auto 6 |].
  destruct (update_version_last_version_wins rereading (fresh checkout)
              (render_manifest "1.0.0" "x") "1.2.0" "2.0.0" manifest_doc
              Hv1 Hv2 Hf Hl Hb) as (w1 & w2 & H1 & H2 & Hfs & _).
  exists w1, w2. split; [exact H1 |]. split; [exact H2 |].
  rewrite Hfs. reflexivity.
Defined.

Lemma validate_generated_assets_no_header_run :
  fs (fresh checkout) !! header_file = None
  /\ validate_generated_assets (fresh checkout)
     = (Ok false,
        World checkout
              ["🔍 Validating generated assets..."; "❌ Missing web_assets.h"]
              [EvExists header_file]).
Proof.
  assert (Hh : fs (fresh checkout) !! header_file = None) by reflexivity.
  split; [exact Hh |].
  exact (validate_generated_assets_stops_at_missing_header (fresh checkout) Hh).
Defined.

Lemma validate_generated_assets_no_impl_run :
  let w := fresh (<[header_file := File "h"]> checkout) in
  (fs w !! header_file = Some (File "h") /\ fs w !! impl_file = None)
  /\ fst (validate_generated_assets w) = Ok false
  /\ last (out (snd (validate_generated_assets w))) = Some "❌ Missing web_assets.cpp".
Proof.
  intros w.
  assert (Hh : fs w !! header_file = Some (File "h")) by reflexivity.
  assert (Hi : fs w !! impl_file = None) by reflexivity.
  split; [auto |].
  rewrite (validate_generated_assets_missing_impl_before_sizes w (File "h") Hh Hi).
  split; reflexivity.
Defined.

Lemma validate_generated_assets_both_small_run :
  (fs (fresh stunted) !! header_file = Some (File "h")
   /\ fs (fresh stunted) !! impl_file = Some (File "c")
   /\ st_size (File "h") < 1000)
  /\ fst (validate_generated_assets (fresh stunted)) = Ok false
  /\ last (out (snd (validate_generated_assets (fresh stunted))))
     = Some "❌ web_assets.h too small (1 bytes)".
Proof.
  assert (Hh : fs (fresh stunted) !! header_file = Some (File "h")) by reflexivity.
  assert (Hi : fs (fresh stunted) !! impl_file = Some (File "c")) by reflexivity.
  assert (Hs : st_size (File "h") < 1000) by (cbn; lia).
  split; [auto |].
  rewrite (validate_generated_assets_reports_header_first (fresh stunted)
             (File "h") (File "c") Hh Hi Hs).
  split; reflexivity.
Defined.

Lemma validate_generated_assets_same_sizes_run :
  let w1 := fresh (<[header_file := File (Py.str_mul "h" 1000)]>
                     (<[impl_file := File (Py.str_mul "c" 500)]> checkout)) in
  let w2 := fresh (<[header_file := File (Py.str_mul "?" 1000)]>
                     (<[impl_file := Dir 500]> checkout)) in
  (st_size <$> (fs w1 !! header_file) = st_size <$> (fs w2 !! header_file)
   /\ st_size <$> (fs w1 !! impl_file) = st_size <$> (fs w2 !! impl_file))
  /\ fst (validate_generated_assets w1) = fst (validate_generated_assets w2).
Proof.
  intros w1 w2.
  assert (Hh : st_size <$> (fs w1 !! header_file) = st_size <$> (fs w2 !! header_file))
    by (vm_compute; reflexivity).
  assert (Hi : st_size <$> (fs w1 !! impl_file) = st_size <$> (fs w2 !! impl_file))
    by (vm_compute; reflexivity).
  split; [auto |].
  exact (proj1 (validate_generated_assets_sees_sizes_only w1 w2 Hh Hi)).
Defined.


Lemma pipeline_never_short_circuits_run :
  Forall (fun step => total (snd step)) [failing_step; passing_step; failing_step]
  /\ exists outcomes w',
       executes [failing_step; passing_step; failing_step] (fresh ∅) outcomes w'
       /\ for_in [failing_step; passing_step; failing_step] run_step [] (fresh ∅)
          = (Ok (failed_names outcomes), w')
       /\ length outcomes = 3
       /\ map fst outcomes = ["Failing"; "Passing"; "Failing"]
       /\ (forall name, In name (failed_names outcomes) <-> In (name, false) outcomes).
Proof.
  assert (Htotal : Forall (fun step => total (snd step))
                     [failing_step; passing_step; failing_step]).
  { repeat constructor; cbn [snd failing_step passing_step]; apply ret_total. }
  split; [exact Htotal |].
  exact (pipeline_never_short_circuits _ (fresh ∅) Htotal).
Defined.

(** Every command of the housekeeping step exits with status 1 and the
    step returns true all the same. *)
Lemma cleanup_generated_files_failing_commands_run :
  sweep_readable silent_failure temp_files (fs (fresh checkout)) = true
  /\ cp_returncode (fst (shell silent_failure "find . -name '*.pyc' -delete" checkout))
     = 1%Z
  /\ fst (cleanup_generated_files silent_failure (fresh checkout)) = Ok true.
Proof.
  assert (Hread : sweep_readable silent_failure temp_files (fs (fresh checkout)) = true)
    by reflexivity.
  split; [exact Hread |]. split; [reflexivity |].
  destruct (cleanup_generated_files_always_succeeds silent_failure (fresh checkout) Hread)
    as (lines & Hrun & _).
  rewrite Hrun. reflexivity.
Defined.


Lemma run_script_without_version_run :
  (Py.truthy_opt (parse_version ["prepare_release.py"]) = false
   /\ run_completes working (parse_version ["prepare_release.py"]) (fs (fresh checkout))
      = true)
  /\ fs (snd (run_script working ["prepare_release.py"] (fresh checkout)))
     = <[header_file := File (Py.str_mul "h" 1000)]>
         (<[impl_file := File (Py.str_mul "c" 500)]> checkout).
Proof.
  assert (Hfalsy : Py.truthy_opt (parse_version ["prepare_release.py"]) = false)
    by reflexivity.
  assert (Hc : run_completes working (parse_version ["prepare_release.py"])
                 (fs (fresh checkout)) = true) by (vm_compute; reflexivity).
  split; [auto |].
  rewrite (proj1 (run_script_without_version_only_runs_commands working
                    ["prepare_release.py"] (fresh checkout) Hfalsy Hc)).
  reflexivity.
Defined.

Lemma run_script_missing_required_file_run :
  let w := fresh (delete "src/Flexifi.cpp" checkout) in
  (In "src/Flexifi.cpp" required_files /\ fs w !! "src/Flexifi.cpp" = None)
  /\ fst (run_script working ["prepare_release.py"] w) = 1%Z
  /\ fst (run_script garbled ["prepare_release.py"] w) = 1%Z.
Proof.
  intros w.
  assert (Hin : In "src/Flexifi.cpp" required_files)
    by (right; right; left; reflexivity).
  assert (Hnone : fs w !! "src/Flexifi.cpp" = None) by reflexivity.
  split; [auto |].
  split.
  - exact (proj1 (run_script_missing_required_file working ["prepare_release.py"] w
                    "src/Flexifi.cpp" Hin Hnone)).
  - exact (proj1 (run_script_missing_required_file garbled ["prepare_release.py"] w
                    "src/Flexifi.cpp" Hin Hnone)).
Defined.

End MoreRuns.
